(** * E-commerce data pipeline: a shallow embedding of [backend/server.py]

    The development follows the source file top to bottom: the tabular
    values handled by the pandas calls, the two utility functions
    [clean_dataframe] and [standardize_schema], the storage helper
    [store_processed_data], and the request handlers [upload_file],
    [get_analytics_overview], [get_processing_logs] and [clear_all_data].
    State (the two MongoDB collections) is threaded explicitly; a raised
    [HTTPException] is a constructor of the result type. *)

From stdpp Require Import gmap strings list fin_maps sorting pretty.
From Stdlib Require Import ZArith Lia Ascii.

Open Scope Z_scope.

(** ** Scalars supplied by the libraries

    Numbers are pandas' numeric scalars and timestamps its [Timestamp]
    values.  Their arithmetic and the text parsers of [pd.to_numeric],
    [pd.to_datetime], [pd.read_csv] and MongoDB's [$dateFromString] are not
    part of the repository: the development is parametric in them. *)

Class Scalars := {
  num : Type;
  num_eq_dec :: EqDecision num;
  num_zero : num;
  num_add : num → num → num;
  num_mul : num → num → num;
  (** the order MongoDB's [$sort] uses on numbers *)
  num_le : relation num;
  num_le_dec :: RelDecision num_le;
  num_le_trans :: Transitive num_le;
  num_le_total :: Total num_le;
  (** whether BSON can encode the number: every float, and the integers
      that fit 8 bytes *)
  bson_number : num → bool;
  datetime : Type;
  datetime_eq_dec :: EqDecision datetime;
}.

(** A cell of a DataFrame.  [Null] stands for NaN and None, [NaT] is the
    missing timestamp; [isnull] reports both. *)
Inductive cell `{Scalars} :=
  | Null
  | NaT
  | Num (x : num)
  | Str (s : string)
  | Date (d : datetime).

Global Instance cell_eq_dec `{Scalars} : EqDecision cell.
Proof. solve_decision. Defined.

Definition isnull `{Scalars} (c : cell) : bool :=
  match c with Null | NaT => true | _ => false end.

(** Calendar day rendered by [$dateToString] with format [%Y-%m-%d]. *)
Record day := Day { year : nat; month : nat; mday : nat }.

Definition valid_day (d : day) : Prop :=
  (year d < 100 * 100 ∧ 1 ≤ month d ≤ 12 ∧ 1 ≤ mday d ≤ 31)%nat.

(** The outcome of a call that may raise: the message is [str(e)]. *)
Inductive raises (A : Type) :=
  | Returned (a : A)
  | Raised (msg : string).
Arguments Returned {A} a.
Arguments Raised {A} msg.

Record DataFrame `{Scalars} := {
  columns : list string;
  rows : list (list cell);
}.

Class Library `{Scalars} := {
  (** [s.lower()] on text that holds a character outside ASCII (texts are
      kept in UTF-8) *)
  str_lower : string → string;
  (** [pd.to_numeric(text, errors='coerce')] on one text value *)
  to_numeric_str : string → option num;
  (** [pd.to_datetime(series, errors='coerce')]; [None] is NaT.  The result
      has one entry per element of the Series. *)
  to_datetime : list cell → list (option datetime);
  to_datetime_length l : length (to_datetime l) = length l;
  (** [Timestamp.isoformat()] *)
  isoformat : datetime → string;
  (** [content.decode('utf-8')] *)
  decode_utf8 : list Byte.byte → raises string;
  (** [pd.read_csv(io.StringIO(text))]; every row of a parsed frame has one
      cell per column *)
  read_csv : string → raises DataFrame;
  read_csv_rectangular text df :
    read_csv text = Returned df →
    Forall (λ r, length r = length (columns df)) (rows df);
  (** the [k]-th [uuid.uuid4()] drawn while serving a request *)
  uuid4 : nat → string;
  (** [datetime.now(timezone.utc)] *)
  utcnow : datetime;
  (** [(datetime.now(timezone.utc) - start_time).total_seconds()] *)
  total_seconds : num;
  (** [str(e)] for an [HTTPException] with this status and detail *)
  str_http_exception : Z → string → string;
  (** [$dateFromString] on a stored string, then the calendar day of the
      parsed date; the server's error when it rejects the string *)
  date_from_string : string → raises day;
  date_from_string_valid s d : date_from_string s = Returned d → valid_day d;
  (** the [$min] and [$max] accumulators over the values of a field *)
  agg_min : list cell → cell;
  agg_max : list cell → cell;
  (** whether the driver accepts the text as a field name *)
  bson_key : string → bool;
  (** [str(e)] of the exception the driver raises on documents it cannot
      encode *)
  bson_error : list (gmap string cell) → string;
}.

(** ** Text helpers used by the source *)

(** [s.endswith(suffix)]: some tail of [s] is [suffix], compared byte for
    byte. *)
Fixpoint endswith (s suffix : string) : bool :=
  String.eqb s suffix ||
  match s with
  | EmptyString => false
  | String _ s' => endswith s' suffix
  end.

(** [c.lower()] on one ASCII character: the letters [A]..[Z] are
    shifted, every other character is kept. *)
Definition lower_ascii (c : ascii) : ascii :=
  let n := nat_of_ascii c in
  if bool_decide (65 ≤ n)%nat && bool_decide (n ≤ 90)%nat
  then ascii_of_nat (n + 32) else c.

Fixpoint lower_letters (s : string) : string :=
  match s with
  | EmptyString => EmptyString
  | String c s' => String (lower_ascii c) (lower_letters s')
  end.

(** every character of the text is an ASCII character *)
Fixpoint is_ascii (s : string) : bool :=
  match s with
  | EmptyString => true
  | String c s' => bool_decide (nat_of_ascii c < 128)%nat && is_ascii s'
  end.

(** [s.lower()].  On ASCII text it shifts the letters [A]..[Z]; on other
    text Python applies the Unicode case mapping, which the library
    supplies. *)
Definition lower `{Library} (s : string) : string :=
  if is_ascii s then lower_letters s else str_lower s.

(** [s.replace(c, '')] for a one-character pattern [c] *)
Fixpoint remove_char (c : ascii) (s : string) : string :=
  match s with
  | EmptyString => EmptyString
  | String a s' =>
      if Ascii.eqb a c then remove_char c s' else String a (remove_char c s')
  end.

(** [c in s] for a character [c] *)
Fixpoint has_char (c : ascii) (s : string) : bool :=
  match s with
  | EmptyString => false
  | String a s' => Ascii.eqb a c || has_char c s'
  end.

(** [", ".join(l)] *)
Fixpoint join (sep : string) (l : list string) : string :=
  match l with
  | [] => ""
  | [x] => x
  | x :: l' => x +:+ sep +:+ join sep l'
  end.

(** [repr] of a list of plain names, as an f-string renders a Python list *)
Definition repr_list (l : list string) : string :=
  "[" +:+ join ", " (fmap (λ s, "'" +:+ s +:+ "'") l) +:+ "]".

(** Keep the first occurrence of every element, in order; [seen] holds
    the elements already met.  This is the order [drop_duplicates] keeps
    rows in, and the order in which groups are first met below. *)
Fixpoint drop_duplicates_from {A} `{EqDecision A} (seen l : list A) : list A :=
  match l with
  | [] => []
  | x :: l' =>
      if bool_decide (x ∈ seen) then drop_duplicates_from seen l'
      else x :: drop_duplicates_from (x :: seen) l'
  end.

(** ** DataFrame operations *)

Section Frames.
Context `{Scalars}.

(** [len(df)] *)
Definition len (df : DataFrame) : Z := Z.of_nat (length (rows df)).

(** [df.drop_duplicates()]: keeps the first occurrence of every row. *)
Definition drop_duplicates (df : DataFrame) : DataFrame :=
  {| columns := columns df; rows := drop_duplicates_from [] (rows df) |}.

(** a row with a missing cell *)
Definition has_null (r : list cell) : bool := existsb isnull r.

(** [df.dropna()] *)
Definition dropna_rows (l : list (list cell)) : list (list cell) :=
  filter (λ r, has_null r = false) l.

Definition dropna (df : DataFrame) : DataFrame :=
  {| columns := columns df; rows := dropna_rows (rows df) |}.

(** [df.isnull().sum().sum()]: the number of missing cells *)
Definition count_null (r : list cell) : Z :=
  Z.of_nat (length (filter (λ c, isnull c = true) r)).

Definition isnull_sum (df : DataFrame) : Z :=
  foldr (λ r acc, count_null r + acc) 0 (rows df).

Definition clean_dataframe (df : DataFrame) : DataFrame * list string :=
  let errors := [] in
  let original_count := len df in
  (* Remove duplicates *)
  let df := drop_duplicates df in
  let duplicates_removed := original_count - len df in
  let errors :=
    if bool_decide (duplicates_removed > 0)
    then errors ++ ["Removed " +:+ pretty duplicates_removed +:+ " duplicate records"]
    else errors in
  (* Handle missing values *)
  let missing_before := isnull_sum df in
  let df := dropna df in
  let missing_removed := missing_before - isnull_sum df in
  let errors :=
    if bool_decide (missing_removed > 0)
    then errors ++ ["Removed " +:+ pretty (len df) +:+ " records with missing values"]
    else errors in
  (df, errors).
End Frames.

(** ** Schema standardisation *)

(** The dict literal [column_mappings], in source order. *)
Definition column_mappings_items : list (string * string) :=
  [ ("invoiceno", "order_id");
    ("invoice", "order_id");
    ("orderid", "order_id");
    ("stockcode", "product_id");
    ("productid", "product_id");
    ("sku", "product_id");
    ("description", "product_name");
    ("productname", "product_name");
    ("product", "product_name");
    ("quantity", "quantity");
    ("qty", "quantity");
    ("unitprice", "unit_price");
    ("price", "unit_price");
    ("customerid", "customer_id");
    ("customer", "customer_id");
    ("invoicedate", "order_date");
    ("date", "order_date");
    ("orderdate", "order_date");
    ("country", "country") ].

Definition column_mappings : gmap string string :=
  list_to_map column_mappings_items.

(** [name.lower().replace(' ', '').replace('_', '')] *)
Definition normalize_column `{Library} (name : string) : string :=
  remove_char "_"%char (remove_char " "%char (lower name)).

(** the label [df.rename(columns=column_mappings)] gives to a column *)
Definition rename_column (name : string) : string :=
  default name (column_mappings !! name).

Definition required_columns : list string :=
  ["order_id"; "product_id"; "quantity"; "unit_price"].

(** The body of a [try] block that mutates the frame in place: the frame
    reached so far survives a raised exception. *)
Definition try_block `{Scalars} (A : Type) : Type :=
  DataFrame → DataFrame * raises A.

Global Instance try_ret `{Scalars} : MRet try_block :=
  λ A a df, (df, Returned a).

Global Instance try_bind `{Scalars} : MBind try_block :=
  λ A B k m df,
    match m df with
    | (df', Returned a) => k a df'
    | (df', Raised e) => (df', Raised e)
    end.

Section Schema.
Context `{Library}.

(** the values of the column at position [j] *)
Definition column_at (j : nat) (df : DataFrame) : list cell :=
  fmap (λ r, default Null (r !! j)) (rows df).

(** positions of the columns labelled [name] *)
Definition positions (name : string) (cols : list string) : list nat :=
  filter (λ j, cols !! j = Some name) (seq 0 (length cols)).

(** [df[name]] where a Series is expected.  A label carried by several
    columns selects a DataFrame, which every caller below rejects with
    the library's message; an absent label is a [KeyError]. *)
Definition getitem (name : string) (what : string) : try_block (list cell) :=
  λ df, match positions name (columns df) with
        | [j] => (df, Returned (column_at j df))
        | [] => (df, Raised ("'" +:+ name +:+ "'"))
        | _ => (df, Raised what)
        end.

(** [df[name] = values]: overwrites the column(s) labelled [name], or
    appends a new last column when the label is absent. *)
Definition setitem (name : string) (values : list cell) : try_block unit :=
  λ df,
    let value i := default Null (values !! i) in
    if bool_decide (name ∈ columns df) then
      ({| columns := columns df;
          rows := imap (λ i r,
                    imap (λ j c,
                      if bool_decide (columns df !! j = Some name)
                      then value i else c) r) (rows df) |},
       Returned ())
    else
      ({| columns := columns df ++ [name];
          rows := imap (λ i r, r ++ [value i]) (rows df) |},
       Returned ()).

(** [pd.to_numeric(value, errors='coerce')] on one cell.  Frames read
    from CSV text hold no timestamp cells. *)
Definition to_numeric_cell (c : cell) : cell :=
  match c with
  | Num x => Num x
  | Str s => match to_numeric_str s with Some x => Num x | None => Null end
  | Null | NaT | Date _ => Null
  end.

(** elementwise product of two numeric Series; a missing factor gives a
    missing product *)
Definition mul_cell (a b : cell) : cell :=
  match a, b with
  | Num x, Num y => Num (num_mul x y)
  | _, _ => Null
  end.

Definition to_datetime_cells (l : list cell) : list cell :=
  fmap (λ o, match o with Some d => Date d | None => NaT end) (to_datetime l).

Definition not_1d : string := "arg must be a list, tuple, 1-d array, or Series".
Definition not_unique : string := "cannot assemble with duplicate keys".

(** [if <test on df.columns>: body] *)
Definition when_columns (test : list string → bool) (body : try_block unit)
  : try_block unit :=
  λ df, if test (columns df) then body df else (df, Returned ()).

(** The statements between [try:] and [except]. *)
Definition convert_types : try_block unit :=
  q ← getitem "quantity" not_1d;
  setitem "quantity" (fmap to_numeric_cell q);;
  p ← getitem "unit_price" not_1d;
  setitem "unit_price" (fmap to_numeric_cell p);;
  (* Calculate total price if not exists *)
  when_columns (λ cols, bool_decide ("total_price" ∉ cols))
    (q ← getitem "quantity" not_1d;
     p ← getitem "unit_price" not_1d;
     setitem "total_price" (zip_with mul_cell q p));;
  (* Parse dates *)
  when_columns (λ cols, bool_decide ("order_date" ∈ cols))
    (d ← getitem "order_date" not_unique;
     setitem "order_date" (to_datetime_cells d)).

Definition standardize_schema (df : DataFrame) : DataFrame * list string :=
  let errors := [] in
  (* Normalize column names *)
  let df := {| columns := fmap normalize_column (columns df); rows := rows df |} in
  (* Map columns *)
  let df := {| columns := fmap rename_column (columns df); rows := rows df |} in
  (* Ensure required columns exist *)
  let missing_columns :=
    filter (λ col, col ∉ columns df) required_columns in
  if bool_decide (missing_columns ≠ []) then
    (df, errors ++ ["Missing required columns: " +:+ repr_list missing_columns])
  else
    match convert_types df with
    | (df, Returned _) => (df, errors)
    | (df, Raised e) => (df, errors ++ ["Error converting data types: " +:+ e])
    end.
End Schema.

(** ** The store and the request handlers *)

(** What a handler hands back to the framework: a JSON body, or a raised
    [HTTPException(status_code, detail)]. *)
Inductive response (A : Type) :=
  | Ok (body : A)
  | HTTPException (status_code : Z) (detail : string).
Arguments Ok {A} body.
Arguments HTTPException {A} status_code detail.

Record UploadFile := {
  filename : string;
  content : list Byte.byte;
}.

Section Store.
Context `{Library}.

Record ProcessingLog := {
  log_id : string;
  log_filename : string;
  status : string;
  records_processed : Z;
  records_failed : Z;
  errors : list string;
  timestamp : datetime;
  processing_time : option num;
}.

(** The two collections of the database. *)
Record Db := {
  ecommerce_data : list (gmap string cell);
  processing_logs : list ProcessingLog;
}.

Record UploadResult := {
  message : string;
  res_records_processed : Z;
  res_records_failed : Z;
  res_errors : list string;
  res_processing_time : num;
}.

(** [dict(zip(df.columns, row))]: a later column overwrites an earlier one
    with the same label. *)
Definition to_dict (cols : list string) (r : list cell) : gmap string cell :=
  foldl (λ m kv, <[kv.1 := kv.2]> m) ∅ (zip cols r).

(** [df.to_dict('records')] *)
Definition to_dict_records (df : DataFrame) : list (gmap string cell) :=
  fmap (to_dict (columns df)) (rows df).

(** The body of the [for record in records] loop. *)
Definition add_metadata (source : string) (i : nat) (record : gmap string cell)
  : gmap string cell :=
  let record := <["_id" := Str (uuid4 (S i))]> record in
  let record := <["source_file" := Str source]> record in
  let record := <["processed_at" := Date utcnow]> record in
  (* Convert pandas timestamps to ISO strings *)
  match record !! "order_date" with
  | Some (Date d) => <["order_date" := Str (isoformat d)]> record
  | _ => record
  end.

(** The values BSON encodes: text, floats (NaN among them), [None],
    datetimes and the integers of at most 8 bytes.  The missing timestamp
    NaT is a datetime the encoder cannot read.  A document is encoded when
    its field names are accepted and its values are encoded. *)
Definition bson_encodable (c : cell) : bool :=
  match c with
  | NaT => false
  | Num x => bson_number x
  | Null | Str _ | Date _ => true
  end.

Definition encodable (record : gmap string cell) : bool :=
  forallb (λ kv, bson_key kv.1 && bson_encodable kv.2) (map_to_list record).

(** [db.ecommerce_data.insert_many(records)]: the driver refuses an empty
    list of documents, and it encodes the documents before it sends them:
    a value it cannot encode raises and nothing is stored.  Otherwise the
    documents are appended. *)
Definition insert_many (records : list (gmap string cell)) (db : Db)
  : Db * raises unit :=
  match records with
  | [] => (db, Raised "documents must be a non-empty list")
  | _ =>
      if forallb encodable records then
        ({| ecommerce_data := ecommerce_data db ++ records;
            processing_logs := processing_logs db |}, Returned ())
      else (db, Raised (bson_error records))
  end.

(** [db.processing_logs.insert_one(log_entry.dict())] *)
Definition insert_one (entry : ProcessingLog) (db : Db) : Db :=
  {| ecommerce_data := ecommerce_data db;
     processing_logs := processing_logs db ++ [entry] |}.

Definition store_processed_data (df : DataFrame) (source : string) (db : Db)
  : Db * response Z :=
  let records := to_dict_records df in
  let records := imap (add_metadata source) records in
  match insert_many records db with
  | (db, Returned _) => (db, Ok (Z.of_nat (length records)))
  | (db, Raised e) => (db, HTTPException 500 ("Error storing data: " +:+ e))
  end.

Definition upload_file (file : UploadFile) (db : Db) : Db * response UploadResult :=
  if negb (endswith (filename file) ".csv") then
    (db, HTTPException 400 "Only CSV files are supported")
  else
    (* the [except Exception as e] handler *)
    let failed (db : Db) (e : string) :=
      (insert_one {| log_id := uuid4 0;
                     log_filename := filename file;
                     status := "failed";
                     records_processed := 0;
                     records_failed := 0;
                     errors := [e];
                     timestamp := utcnow;
                     processing_time := Some total_seconds |} db,
       HTTPException 500 ("Error processing file: " +:+ e)) in
    match decode_utf8 (content file) with
    | Raised e => failed db e
    | Returned text =>
      match read_csv text with
      | Raised e => failed db e
      | Returned df =>
        let original_count := len df in
        let '(df, cleaning_errors) := clean_dataframe df in
        let '(df, schema_errors) := standardize_schema df in
        let all_errors := cleaning_errors ++ schema_errors in
        match store_processed_data df (filename file) db with
        | (db, HTTPException code detail) =>
            failed db (str_http_exception code detail)
        | (db, Ok records_stored) =>
            let processing_time := total_seconds in
            (insert_one {| log_id := uuid4 0;
                           log_filename := filename file;
                           status := "completed";
                           records_processed := records_stored;
                           records_failed := original_count - records_stored;
                           errors := all_errors;
                           timestamp := utcnow;
                           processing_time := Some processing_time |} db,
             Ok {| message := "File processed successfully";
                   res_records_processed := records_stored;
                   res_records_failed := original_count - records_stored;
                   res_errors := all_errors;
                   res_processing_time := processing_time |})
        end
      end
    end.

Definition clear_all_data (db : Db) : Db * response string :=
  ({| ecommerce_data := []; processing_logs := [] |},
   Ok "All data cleared successfully").
End Store.

(** ** Analytics *)

Global Instance raises_ret : MRet raises := λ A a, Returned a.
Global Instance raises_bind : MBind raises :=
  λ A B k m, match m with Returned a => k a | Raised e => Raised e end.

(** run the calls of a list in order, stopping at the first that raises *)
Fixpoint collect {A} (l : list (raises A)) : raises (list A) :=
  match l with
  | [] => Returned []
  | m :: l' => a ← m; r ← collect l'; mret (a :: r)
  end.

(** the decimal digit [n mod 10] as a character *)
Definition digit (n : nat) : ascii := ascii_of_nat (48 + n mod 10).

(** [%m] and [%d]: two digits, zero padded *)
Definition two_digits (n : nat) (rest : string) : string :=
  String (digit (n / 10)) (String (digit n) rest).

(** [%Y]: four digits, zero padded *)
Definition four_digits (n : nat) (rest : string) : string :=
  two_digits (n / 100) (two_digits n rest).

(** [$dateToString] with format [%Y-%m-%d] *)
Definition date_to_string (d : day) : string :=
  four_digits (year d)
    (String "-" (two_digits (month d) (String "-" (two_digits (mday d) "")))).

(** calendar order on days *)
Definition day_le (a b : day) : Prop :=
  (year a < year b ∨
   (year a = year b ∧ (month a < month b ∨
                       (month a = month b ∧ mday a ≤ mday b))))%nat.

(** The requests the handler sends to the database. *)
Inductive pipeline :=
  | StatsPipeline | TopProductsPipeline | TopCustomersPipeline | DailyRevenuePipeline.
Inductive db_call :=
  | CountDocuments
  | Aggregate (p : pipeline).

Section Analytics.
Context `{Library}.

(** [{"$sum": field}] over the documents of a group: values that are not
    numbers are skipped, a NaN makes the sum NaN. *)
Definition sum_step (acc : cell) (v : option cell) : cell :=
  match acc, v with
  | Num a, Some (Num x) => Num (num_add a x)
  | Num a, Some Null => Null
  | _, _ => acc
  end.

Definition sum_field (name : string) (docs : list (gmap string cell)) : cell :=
  foldl sum_step (Num num_zero) (fmap (λ d, d !! name) docs).

(** The order [$sort] puts on the sums: NaN below every number. *)
Definition sum_le (a b : cell) : Prop :=
  match a, b with
  | Num x, Num y => num_le x y
  | Num _, _ => False
  | _, _ => True
  end.

Global Instance sum_le_dec : RelDecision sum_le.
Proof. intros [] []; simpl; apply _. Defined.

(** The order [$sort] puts on the day keys: null first, then strings in
    byte order. *)
Definition key_le (a b : option string) : Prop :=
  match a, b with
  | None, _ => True
  | Some _, None => False
  | Some x, Some y => String.le x y
  end.

Global Instance key_le_dec : RelDecision key_le.
Proof. intros [] []; simpl; apply _. Defined.

(** [$group]: one group per distinct key, in order of first appearance,
    with the items that carry the key. *)
Definition group {K A} `{EqDecision K} (key : A → K) (items : list A)
  : list (K * list A) :=
  fmap (λ k, (k, filter (λ d, key d = k) items))
      (drop_duplicates_from [] (fmap key items)).

Record ProductGroup := {
  pg_id : option cell * option cell;
  pg_total_quantity : cell;
  pg_total_revenue : cell;
  pg_order_count : Z;
}.

Record CustomerGroup := {
  cg_id : option cell;
  cg_total_spent : cell;
  cg_order_count : Z;
}.

Record DayGroup := {
  dg_id : option string;
  dg_revenue : cell;
  dg_orders : Z;
}.

(** [{"$sort": {"total_revenue": -1}}], [{"$sort": {"total_spent": -1}}]
    and [{"$sort": {"_id": 1}}] *)
Definition by_revenue_desc (a b : ProductGroup) : Prop :=
  sum_le (pg_total_revenue b) (pg_total_revenue a).
Definition by_spent_desc (a b : CustomerGroup) : Prop :=
  sum_le (cg_total_spent b) (cg_total_spent a).
Definition by_id_asc (a b : DayGroup) : Prop :=
  key_le (dg_id a) (dg_id b).

Global Instance by_revenue_desc_dec : RelDecision by_revenue_desc.
Proof. intros a b; unfold by_revenue_desc; apply _. Defined.
Global Instance by_spent_desc_dec : RelDecision by_spent_desc.
Proof. intros a b; unfold by_spent_desc; apply _. Defined.
Global Instance by_id_asc_dec : RelDecision by_id_asc.
Proof. intros a b; unfold by_id_asc; apply _. Defined.

(** [.to_list(n)] after [{"$limit": n}] *)
Definition limit {A} (n : nat) (l : list A) : list A := take n l.

Definition top_products_pipeline (docs : list (gmap string cell))
  : list ProductGroup :=
  let groups :=
    fmap (λ g, {| pg_id := g.1;
                 pg_total_quantity := sum_field "quantity" g.2;
                 pg_total_revenue := sum_field "total_price" g.2;
                 pg_order_count := Z.of_nat (length g.2) |})
        (group (λ d, (d !! "product_id", d !! "product_name")) docs) in
  limit 5 (merge_sort by_revenue_desc groups).

Definition top_customers_pipeline (docs : list (gmap string cell))
  : list CustomerGroup :=
  let groups :=
    fmap (λ g, {| cg_id := g.1;
                 cg_total_spent := sum_field "total_price" g.2;
                 cg_order_count := Z.of_nat (length g.2) |})
        (group (λ d, d !! "customer_id") docs) in
  limit 5 (merge_sort by_spent_desc groups).

(** The [_id] expression of the daily pipeline on one document: a missing
    or null [order_date] gives null, a string is parsed and rendered as a
    day, any other value is rejected by [$dateFromString]. *)
Definition day_key (d : gmap string cell) : raises (option string) :=
  match d !! "order_date" with
  | None | Some Null => Returned None
  | Some (Str s) => x ← date_from_string s; mret (Some (date_to_string x))
  | Some _ => Raised "$dateFromString requires that 'dateString' be a string"
  end.

Definition daily_revenue_pipeline (docs : list (gmap string cell))
  : raises (list DayGroup) :=
  keys ← collect (fmap day_key docs);
  let groups :=
    fmap (λ g, {| dg_id := g.1;
                 dg_revenue := sum_field "total_price" (fmap snd g.2);
                 dg_orders := Z.of_nat (length g.2) |})
        (group fst (zip keys docs)) in
  mret (limit 30 (merge_sort by_id_asc groups)).

Record ProductEntry := {
  product_id : cell;
  product_name : cell;
  pe_total_revenue : cell;
  pe_total_quantity : cell;
  pe_order_count : Z;
}.

Record CustomerEntry := {
  customer_id : option cell;
  ce_total_spent : cell;
  ce_order_count : Z;
}.

Record DayEntry := {
  date : option string;
  revenue : cell;
  orders : Z;
}.

Record DataStats := {
  total_records : Z;
  total_revenue : cell;
  unique_customers : Z;
  unique_products : Z;
  date_range_start : cell;
  date_range_end : cell;
  top_products : list ProductEntry;
  top_customers : list CustomerEntry;
  daily_revenue : list DayEntry;
}.

Inductive AnalyticsBody :=
  | NoData (total : Z) (msg : string)
  | Overview (stats : DataStats).

(** One item of the [top_products] comprehension: [item["_id"][...]] is a
    [KeyError] when the grouped documents lacked the field. *)
Definition product_entry (item : ProductGroup) : raises ProductEntry :=
  match pg_id item with
  | (None, _) => Raised "'product_id'"
  | (Some _, None) => Raised "'product_name'"
  | (Some pid, Some pname) =>
      Returned {| product_id := pid;
                  product_name := pname;
                  pe_total_revenue := pg_total_revenue item;
                  pe_total_quantity := pg_total_quantity item;
                  pe_order_count := pg_order_count item |}
  end.

Definition customer_entry (item : CustomerGroup) : CustomerEntry :=
  {| customer_id := cg_id item;
     ce_total_spent := cg_total_spent item;
     ce_order_count := cg_order_count item |}.

Definition day_entry (item : DayGroup) : DayEntry :=
  {| date := dg_id item; revenue := dg_revenue item; orders := dg_orders item |}.

(** [$addToSet] then [len]: the number of distinct values of a field *)
Definition count_distinct (name : string) (docs : list (gmap string cell)) : Z :=
  Z.of_nat (length (drop_duplicates_from [] (omap (λ d, d !! name) docs))).

Definition all_calls : list db_call :=
  [CountDocuments; Aggregate StatsPipeline; Aggregate TopProductsPipeline;
   Aggregate TopCustomersPipeline; Aggregate DailyRevenuePipeline].

(** The handler returns the requests it sent together with its answer. *)
Definition get_analytics_overview (db : Db) : list db_call * response AnalyticsBody :=
  let docs := ecommerce_data db in
  (* Get basic stats *)
  let total := Z.of_nat (length docs) in
  if bool_decide (total = 0) then
    ([CountDocuments],
     Ok (NoData 0 "No data available. Please upload a CSV file first."))
  else
    let products := top_products_pipeline docs in
    let customers := top_customers_pipeline docs in
    match daily_revenue_pipeline docs with
    | Raised e =>
        (all_calls, HTTPException 500 ("Error fetching analytics: " +:+ e))
    | Returned daily =>
        match collect (fmap product_entry products) with
        | Raised e =>
            (all_calls, HTTPException 500 ("Error fetching analytics: " +:+ e))
        | Returned product_entries =>
            (all_calls,
             Ok (Overview
               {| total_records := total;
                  total_revenue := sum_field "total_price" docs;
                  unique_customers := count_distinct "customer_id" docs;
                  unique_products := count_distinct "product_id" docs;
                  date_range_start := agg_min (omap (λ d, d !! "order_date") docs);
                  date_range_end := agg_max (omap (λ d, d !! "order_date") docs);
                  top_products := product_entries;
                  top_customers := fmap customer_entry customers;
                  daily_revenue := fmap day_entry daily |}))
        end
    end.
End Analytics.

(** ** The log listing *)

Section LogListing.
Context `{Scalars} (time_le : relation datetime) `{!RelDecision time_le}.

(** [{"timestamp": -1}]: later entries first; [time_le] is the order of
    the stored timestamps. *)
Definition newest_first (a b : ProcessingLog) : Prop :=
  time_le (timestamp b) (timestamp a).

Global Instance newest_first_dec : RelDecision newest_first.
Proof. intros a b. unfold newest_first. apply _. Defined.

(** [db.processing_logs.find().sort("timestamp", -1).to_list(50)]; every
    stored entry was written from a [ProcessingLog] and validates back to
    itself. *)
Definition get_processing_logs (db : Db) : response (list ProcessingLog) :=
  Ok (limit 50 (merge_sort newest_first (processing_logs db))).
End LogListing.

(** ** A concrete instance for running the model

    Numbers are integers, the values of the int64 columns of the sample
    files (a float64 column is written with its whole values, and one
    file holds a uint64 value that no operation touches); timestamps are
    seconds since the epoch.  A product is kept modulo 2^64, as pandas
    keeps the product of two int64 columns; the sums of the sample stores
    stay within 64 bits.  The parsers recognise plain decimal integers
    only, and [read_csv] knows the files of the table below, each paired
    with the frame pandas builds from it. *)

Module Sample.
(** the signed 64-bit integer an int64 operation keeps of its result *)
Definition int64 (z : Z) : Z := (z + 2 ^ 63) mod 2 ^ 64 - 2 ^ 63.

Global Instance scalars : Scalars := {|
  num := Z;
  num_zero := 0;
  num_add := Z.add;
  num_mul := λ a b, int64 (a * b);
  num_le := Z.le;
  bson_number := λ z, bool_decide (- 2 ^ 63 ≤ z < 2 ^ 63);
  datetime := Z;
|}.

Definition nl : string := String (ascii_of_nat 10) "".

Definition is_digit (c : ascii) : bool :=
  let n := nat_of_ascii c in bool_decide (48 ≤ n)%nat && bool_decide (n ≤ 57)%nat.

Fixpoint parse_digits (acc : Z) (s : string) : option Z :=
  match s with
  | EmptyString => Some acc
  | String c s' =>
      if is_digit c
      then parse_digits (10 * acc + Z.of_nat (nat_of_ascii c - 48)) s'
      else None
  end.

Definition parse_int (s : string) : option Z :=
  match s with
  | EmptyString => None
  | String "-" s' => if bool_decide (s' = "") then None else Z.opp <$> parse_digits 0 s'
  | _ => parse_digits 0 s
  end.

(** header [order_id,product_id,quantity,unit_price], three data rows, the
    second repeating the first *)
Definition orders_csv : string :=
  "order_id,product_id,quantity,unit_price" +:+ nl +:+
  "A1,P1,2,5" +:+ nl +:+
  "A1,P1,2,5" +:+ nl +:+
  "A2,P2,3,7" +:+ nl.

Definition orders_frame : DataFrame := {|
  columns := ["order_id"; "product_id"; "quantity"; "unit_price"];
  rows := [ [Str "A1"; Str "P1"; Num 2; Num 5];
            [Str "A1"; Str "P1"; Num 2; Num 5];
            [Str "A2"; Str "P2"; Num 3; Num 7] ];
|}.

(** a quantity that is not a number: the column is read as text *)
Definition bad_quantity_csv : string :=
  "order_id,product_id,quantity,unit_price" +:+ nl +:+
  "A1,P1,abc,5" +:+ nl +:+
  "A2,P2,3,7" +:+ nl.

Definition bad_quantity_frame : DataFrame := {|
  columns := ["order_id"; "product_id"; "quantity"; "unit_price"];
  rows := [ [Str "A1"; Str "P1"; Str "abc"; Num 5];
            [Str "A2"; Str "P2"; Str "3"; Num 7] ];
|}.

(** no column for the unit price *)
Definition no_price_csv : string :=
  "Invoice,StockCode,Quantity" +:+ nl +:+
  "A1,P1,2" +:+ nl +:+
  "A2,P2,3" +:+ nl.

Definition no_price_frame : DataFrame := {|
  columns := ["Invoice"; "StockCode"; "Quantity"];
  rows := [ [Str "A1"; Str "P1"; Num 2];
            [Str "A2"; Str "P2"; Num 3] ];
|}.

(** an empty cell in the second data row, and a repeated incomplete row *)
Definition gaps_csv : string :=
  "order_id,product_id,quantity,unit_price" +:+ nl +:+
  "A1,P1,2,5" +:+ nl +:+
  "A2,,3,7" +:+ nl +:+
  "A2,,3,7" +:+ nl +:+
  "A3,P3,1,4" +:+ nl +:+
  "A4,P4,6,1" +:+ nl.

Definition gaps_frame : DataFrame := {|
  columns := ["order_id"; "product_id"; "quantity"; "unit_price"];
  rows := [ [Str "A1"; Str "P1"; Num 2; Num 5];
            [Str "A2"; Null; Num 3; Num 7];
            [Str "A2"; Null; Num 3; Num 7];
            [Str "A3"; Str "P3"; Num 1; Num 4];
            [Str "A4"; Str "P4"; Num 6; Num 1] ];
|}.

(** no column for the product, both price columns present *)
Definition no_product_csv : string :=
  "order_id,quantity,unit_price" +:+ nl +:+
  "A1,2,5" +:+ nl.

Definition no_product_frame : DataFrame := {|
  columns := ["order_id"; "quantity"; "unit_price"];
  rows := [ [Str "A1"; Num 2; Num 5] ];
|}.

(** the largest int64 as a quantity *)
Definition large_quantity_csv : string :=
  "order_id,product_id,quantity,unit_price" +:+ nl +:+
  "A1,P1,9223372036854775807,2" +:+ nl.

Definition large_quantity_frame : DataFrame := {|
  columns := ["order_id"; "product_id"; "quantity"; "unit_price"];
  rows := [ [Str "A1"; Str "P1"; Num 9223372036854775807; Num 2] ];
|}.

(** a date column whose one value is no date *)
Definition bad_date_csv : string :=
  "order_id,product_id,quantity,unit_price,order_date" +:+ nl +:+
  "A1,P1,2,5,unknown" +:+ nl.

Definition bad_date_frame : DataFrame := {|
  columns := ["order_id"; "product_id"; "quantity"; "unit_price"; "order_date"];
  rows := [ [Str "A1"; Str "P1"; Num 2; Num 5; Str "unknown"] ];
|}.

(** no column for the unit price, and an invoice number one above the
    largest int64: the column is read as uint64 *)
Definition large_invoice_csv : string :=
  "Invoice,StockCode,Quantity" +:+ nl +:+
  "9223372036854775808,P1,2" +:+ nl.

Definition large_invoice_frame : DataFrame := {|
  columns := ["Invoice"; "StockCode"; "Quantity"];
  rows := [ [Num 9223372036854775808; Str "P1"; Num 2] ];
|}.

Definition known_files : list (string * DataFrame) :=
  [ (orders_csv, orders_frame);
    (bad_quantity_csv, bad_quantity_frame);
    (no_price_csv, no_price_frame);
    (gaps_csv, gaps_frame);
    (no_product_csv, no_product_frame);
    (large_quantity_csv, large_quantity_frame);
    (bad_date_csv, bad_date_frame);
    (large_invoice_csv, large_invoice_frame) ].

Definition sample_read_csv (text : string) : raises DataFrame :=
  match list_find (λ kv, kv.1 = text) known_files with
  | Some (_, (_, df)) => Returned df
  | None => Raised "Error tokenizing data"
  end.

Definition is_ascii_byte (b : Byte.byte) : bool :=
  bool_decide (Byte.to_nat b < 128)%nat.

(** exact on ASCII content and on content holding the byte [0xff], which
    no UTF-8 text contains *)
Definition sample_decode (bytes : list Byte.byte) : raises string :=
  if forallb is_ascii_byte bytes
  then Returned (String.string_of_list_byte bytes)
  else Raised "'utf-8' codec can't decode byte 0xff: invalid start byte".

Lemma sample_read_csv_rectangular text df :
  sample_read_csv text = Returned df →
  Forall (λ r, length r = length (columns df)) (rows df).
Proof.
  unfold sample_read_csv.
  destruct (list_find _ _) as [[i [k df']]|] eqn:Hfind; [|done].
  intros [= <-]. apply list_find_Some in Hfind as (Hi & _ & _).
  assert (Hall : Forall (λ kv : string * DataFrame,
            Forall (λ r, length r = length (columns kv.2)) (rows kv.2))
            known_files)
    by (repeat constructor).
  rewrite Forall_lookup in Hall. exact (Hall _ _ Hi).
Qed.

(** reads the leading [YYYY-MM-DD] of an ISO date string *)
Definition parse_iso_day (s : string) : raises day :=
  match s with
  | String y3 (String y2 (String y1 (String y0 (String "-"
      (String m1 (String m0 (String "-" (String d1 (String d0 _))))))))) =>
      match parse_digits 0 (String y3 (String y2 (String y1 (String y0 ""))))%Z,
            parse_digits 0 (String m1 (String m0 ""))%Z,
            parse_digits 0 (String d1 (String d0 ""))%Z with
      | Some y, Some m, Some d =>
          let x := Day (Z.to_nat y) (Z.to_nat m) (Z.to_nat d) in
          if bool_decide (valid_day x) then Returned x
          else Raised "Error parsing date string"
      | _, _, _ => Raised "Error parsing date string"
      end
  | _ => Raised "Error parsing date string"
  end.

Lemma parse_iso_day_valid s d : parse_iso_day s = Returned d → valid_day d.
Proof.
  unfold parse_iso_day. intros Hs.
  repeat (case_match; try discriminate).
  simplify_eq.
  match goal with Hv : bool_decide _ = true |- _ =>
    exact (proj1 (bool_decide_eq_true _) Hv) end.
Qed.

(** the least text value of a list under [le], null when there is none *)
Definition extreme (le : string → string → bool) (l : list cell) : cell :=
  foldl (λ acc c,
           match acc, c with
           | Null, Str s => Str s
           | Str a, Str s => if le a s then Str a else Str s
           | _, _ => acc
           end) Null l.

(** field names hold no NUL character *)
Definition sample_bson_key (k : string) : bool := negb (has_char "000" k).

(** the message of the encoder on the first document that holds a value
    it refuses, or else on the field name it refuses *)
Definition sample_bson_error (records : list (gmap string cell)) : string :=
  match list_find (λ record : gmap string cell,
                     forallb bson_encodable (map_to_list record).*2 = false)
                  records with
  | Some (_, record) =>
      if bool_decide (NaT ∈ (map_to_list record).*2)
      then "NaTType does not support utcoffset"
      else "MongoDB can only handle up to 8-byte ints"
  | None => "Key names must not contain the NULL byte"
  end.

Definition sample_to_datetime (l : list cell) : list (option Z) :=
  (λ c, match c with Date d => Some d | _ => None end) <$> l.

Lemma sample_to_datetime_length l : length (sample_to_datetime l) = length l.
Proof. apply length_fmap. Qed.

Global Instance library : Library := {|
  (* the sample headers are ASCII text *)
  str_lower := lower_letters;
  to_numeric_str := parse_int;
  to_datetime := sample_to_datetime;
  to_datetime_length := sample_to_datetime_length;
  bson_key := sample_bson_key;
  bson_error := sample_bson_error;
  isoformat := λ d, pretty d;
  decode_utf8 := sample_decode;
  read_csv := sample_read_csv;
  read_csv_rectangular := sample_read_csv_rectangular;
  uuid4 := λ k, "id-" +:+ pretty k;
  utcnow := 0;
  total_seconds := 0;
  str_http_exception := λ code detail, pretty code +:+ ": " +:+ detail;
  date_from_string := parse_iso_day;
  date_from_string_valid := parse_iso_day_valid;
  agg_min := extreme (λ a b, String.leb a b);
  agg_max := extreme (λ a b, String.leb b a);
|}.

Definition upload (name text : string) : UploadFile :=
  {| filename := name; content := String.list_byte_of_string text |}.

Definition empty_db : Db := {| ecommerce_data := []; processing_logs := [] |}.

(** content that is not UTF-8 *)
Definition broken_upload : UploadFile :=
  {| filename := "orders.csv"; content := [Byte.xff; Byte.xfe] |}.

(** a stored order line *)
Definition order_line (pid pname customer : string) (total : Z) (day : string)
  : gmap string cell :=
  list_to_map [ ("product_id", Str pid); ("product_name", Str pname);
                ("customer_id", Str customer); ("quantity", Num 1);
                ("total_price", Num total); ("order_date", Str day) ].

(** seven products, two customers, three days *)
Definition orders_db : Db := {|
  ecommerce_data :=
    [ order_line "P1" "pen" "C1" 4 "2011-01-05T10:00:00";
      order_line "P2" "ink" "C2" 9 "2010-12-01T08:26:00";
      order_line "P3" "pad" "C1" 2 "2010-12-01T09:00:00";
      order_line "P4" "cap" "C2" 7 "2011-01-05T11:30:00";
      order_line "P5" "bag" "C1" 1 "2010-12-02T12:00:00";
      order_line "P6" "mug" "C2" 6 "2010-12-02T13:00:00";
      order_line "P7" "key" "C1" 3 "2010-12-01T15:45:00" ];
  processing_logs := [];
|}.
End Sample.

(** * Properties *)

(** ** Text *)

Lemma string_app_nil (b : string) : "" +:+ b = b.
Proof. reflexivity. Qed.

Lemma string_app_cons (x : ascii) (a b : string) :
  String x a +:+ b = String x (a +:+ b).
Proof. reflexivity. Qed.

Lemma string_app_assoc (a b c : string) : (a +:+ b) +:+ c = a +:+ (b +:+ c).
Proof.
  induction a as [|x a IH]; [done|].
  rewrite !string_app_cons. by rewrite IH.
Qed.

Lemma string_length_app (a b : string) :
  String.length (a +:+ b) = (String.length a + String.length b)%nat.
Proof.
  induction a as [|x a IH]; [done|].
  rewrite string_app_cons. simpl. by rewrite IH.
Qed.

(** Two texts that agree and end in tails of the same length agree on the
    tails and on what precedes them. *)
Lemma string_app_inj_2 (x y s t : string) :
  String.length s = String.length t → x +:+ s = y +:+ t → x = y ∧ s = t.
Proof.
  intros Hlen. revert y. induction x as [|a x IH]; intros [|b y] Heq;
    rewrite ?string_app_cons, ?string_app_nil in Heq.
  - done.
  - apply (f_equal String.length) in Heq. simpl in Heq.
    rewrite string_length_app in Heq. lia.
  - apply (f_equal String.length) in Heq. simpl in Heq.
    rewrite string_length_app in Heq. lia.
  - injection Heq as -> Heq. destruct (IH _ Heq) as [-> ->]. done.
Qed.

Lemma endswith_nil (suffix : string) :
  endswith "" suffix = String.eqb "" suffix || false.
Proof. reflexivity. Qed.

Lemma endswith_cons (a : ascii) (s suffix : string) :
  endswith (String a s) suffix = String.eqb (String a s) suffix || endswith s suffix.
Proof. reflexivity. Qed.

Lemma endswith_spec (s suffix : string) :
  endswith s suffix = true ↔ ∃ p, s = p +:+ suffix.
Proof.
  induction s as [|a s IH].
  - rewrite endswith_nil, orb_false_r, String.eqb_eq. split.
    + intros <-. by exists "".
    + intros [[|??] Hp]; rewrite ?string_app_cons, ?string_app_nil in Hp;
        [done|discriminate].
  - rewrite endswith_cons, orb_true_iff, String.eqb_eq, IH. split.
    + intros [<-|[p ->]]; [by exists ""|]. by exists (String a p).
    + intros [[|b p] Hp]; rewrite ?string_app_cons, ?string_app_nil in Hp;
        [by left|].
      injection Hp as -> ->. right. by exists p.
Qed.

(** ** Keeping first occurrences *)

Section KeepFirst.
Context {A : Type} `{EqDecision A}.
Implicit Types (l seen : list A) (x : A).

Lemma elem_of_drop_duplicates_from seen l x :
  x ∈ drop_duplicates_from seen l ↔ x ∈ l ∧ x ∉ seen.
Proof.
  revert seen. induction l as [|y l IH]; intros seen; simpl.
  - set_solver.
  - case_bool_decide as Hy.
    + rewrite IH. set_solver.
    + rewrite elem_of_cons, IH. split.
      * intros [->|[Hx Hn]]; [set_solver|].
        split; [set_solver|]. set_solver.
      * intros [Hx Hn]. destruct (decide (x = y)) as [->|Hne]; [by left|].
        right. set_solver.
Qed.

(** Filtering commutes with keeping first occurrences. *)
Lemma filter_drop_duplicates_from (P : A → Prop) `{∀ x, Decision (P x)} seen l :
  filter P (drop_duplicates_from seen l)
  = drop_duplicates_from (filter P seen) (filter P l).
Proof.
  revert seen. induction l as [|y l IH]; intros seen; simpl; [done|].
  rewrite (filter_cons P y l). destruct (decide (P y)) as [Hy|Hy].
  - simpl. assert (y ∈ filter P seen ↔ y ∈ seen) as Hin
      by (rewrite list_elem_of_filter; tauto).
    case_bool_decide as H1; case_bool_decide as H2; try tauto.
    + apply IH.
    + rewrite filter_cons_True by done. f_equal.
      rewrite IH. by rewrite filter_cons_True.
  - case_bool_decide as H1.
    + apply IH.
    + rewrite filter_cons_False by done. rewrite IH.
      by rewrite filter_cons_False.
Qed.

Lemma length_drop_duplicates_from seen l :
  (length (drop_duplicates_from seen l) ≤ length l)%nat.
Proof.
  revert seen. induction l as [|y l IH]; intros seen; simpl; [done|].
  case_bool_decide; [specialize (IH seen)|specialize (IH (y :: seen))]; simpl; lia.
Qed.
End KeepFirst.

(** ** The cleaner *)

Section Cleaner.
Context `{Scalars}.
Implicit Types (df : DataFrame) (r : list cell).

Lemma count_null_nonneg r : 0 ≤ count_null r.
Proof. unfold count_null. lia. Qed.

Lemma count_null_zero r : has_null r = false → count_null r = 0.
Proof.
  unfold count_null, has_null. induction r as [|c r IH]; simpl; [done|].
  intros [Hc Hr]%orb_false_iff. rewrite filter_cons_False by congruence. auto.
Qed.

Lemma count_null_pos r : has_null r = true → 0 < count_null r.
Proof.
  unfold count_null, has_null. induction r as [|c r IH]; simpl; [done|].
  destruct (isnull c) eqn:Hc; simpl.
  - intros _. rewrite filter_cons_True by done. simpl. lia.
  - intros Hr. rewrite filter_cons_False by congruence. auto.
Qed.

(** No missing cell is left after [dropna]. *)
Lemma dropna_rows_clean (l : list (list cell)) :
  Forall (λ r, has_null r = false) (dropna_rows l).
Proof. apply Forall_forall. intros r [? _]%list_elem_of_filter. done. Qed.

Lemma isnull_sum_zero df :
  Forall (λ r, has_null r = false) (rows df) → isnull_sum df = 0.
Proof.
  unfold isnull_sum. induction 1 as [|r l Hr _ IH]; simpl; [done|].
  rewrite count_null_zero by done. lia.
Qed.

Lemma isnull_sum_nonneg df : 0 ≤ isnull_sum df.
Proof.
  unfold isnull_sum. induction (rows df) as [|r l IH]; simpl; [done|].
  pose proof (count_null_nonneg r). lia.
Qed.

(** The count of missing cells is positive exactly when some row has a
    missing cell. *)
Lemma isnull_sum_pos df :
  isnull_sum df > 0 ↔ Exists (λ r, has_null r = true) (rows df).
Proof.
  unfold isnull_sum. induction (rows df) as [|r l IH]; simpl.
  - rewrite Exists_nil. lia.
  - rewrite Exists_cons, <- IH.
    pose proof (isnull_sum_nonneg {| columns := []; rows := l |}) as Hl.
    unfold isnull_sum in Hl; simpl in Hl.
    destruct (has_null r) eqn:Hr.
    + pose proof (count_null_pos r Hr). split; [auto|lia].
    + rewrite (count_null_zero r Hr). split; [intros; right; lia|].
      intros [|]; [done|lia].
Qed.

Lemma Exists_drop_duplicates (P : list cell → Prop) (l : list (list cell)) :
  Exists P (drop_duplicates_from [] l) ↔ Exists P l.
Proof.
  rewrite !Exists_exists.
  setoid_rewrite elem_of_drop_duplicates_from. set_solver.
Qed.

(** The note on duplicates, with the count the source computes: rows of
    the raw table minus rows kept by [drop_duplicates]. *)
Definition duplicate_note df : list string :=
  let removed := len df - len (drop_duplicates df) in
  if bool_decide (removed > 0)
  then ["Removed " +:+ pretty removed +:+ " duplicate records"] else [].

(** The note on missing values. *)
Definition missing_note df : list string :=
  if bool_decide (Exists (λ r, has_null r = true) (rows df))
  then ["Removed " +:+ pretty (len (clean_dataframe df).1)
        +:+ " records with missing values"]
  else [].

Lemma clean_dataframe_frame df :
  (clean_dataframe df).1 = dropna (drop_duplicates df).
Proof. unfold clean_dataframe. by repeat case_bool_decide. Qed.

Lemma clean_dataframe_errors df :
  (clean_dataframe df).2 = duplicate_note df ++ missing_note df.
Proof.
  unfold missing_note. rewrite clean_dataframe_frame.
  unfold clean_dataframe, duplicate_note. simpl.
  rewrite (isnull_sum_zero (dropna (drop_duplicates df)))
    by apply dropna_rows_clean.
  rewrite Z.sub_0_r.
  pose proof (isnull_sum_pos (drop_duplicates df)) as Hpos.
  simpl in Hpos. rewrite Exists_drop_duplicates in Hpos.
  repeat case_bool_decide; simpl; try done; tauto.
Qed.

Lemma clean_dataframe_no_null df :
  Forall (λ r, has_null r = false) (rows (clean_dataframe df).1).
Proof. rewrite clean_dataframe_frame. apply dropna_rows_clean. Qed.

Lemma clean_dataframe_columns df :
  columns (clean_dataframe df).1 = columns df.
Proof. by rewrite clean_dataframe_frame. Qed.

Lemma clean_dataframe_rows_subseteq df :
  rows (clean_dataframe df).1 ⊆ rows df.
Proof.
  rewrite clean_dataframe_frame. simpl. intros r.
  unfold dropna_rows. rewrite list_elem_of_filter, elem_of_drop_duplicates_from.
  tauto.
Qed.

Lemma len_clean_dataframe df : 0 ≤ len (clean_dataframe df).1 ≤ len df.
Proof.
  rewrite clean_dataframe_frame. unfold len. simpl. unfold dropna_rows.
  pose proof (length_filter (λ r, has_null r = false)
                (drop_duplicates_from [] (rows df))).
  pose proof (length_drop_duplicates_from [] (rows df)). lia.
Qed.

(** C5. The cleaner drops exact duplicate rows first and rows with a
    missing cell second; the surviving rows are the same, in the same
    order, as when rows with a missing cell are dropped first and
    duplicates second.  The note on duplicates counts against the raw
    table, so it is the order of the two steps that fixes its number. *)
Theorem clean_dataframe_order_irrelevant df :
  (clean_dataframe df).1 = dropna (drop_duplicates df)
  ∧ dropna (drop_duplicates df) = drop_duplicates (dropna df)
  ∧ (clean_dataframe df).2 = duplicate_note df ++ missing_note df.
Proof.
  split; [apply clean_dataframe_frame|]. split; [|apply clean_dataframe_errors].
  unfold dropna, drop_duplicates, dropna_rows. simpl. f_equal.
  by rewrite filter_drop_duplicates_from.
Qed.

(** The two notes never coincide, whatever the numbers in them. *)
Lemma notes_distinct (n m : Z) :
  "Removed " +:+ pretty n +:+ " duplicate records"
  ≠ "Removed " +:+ pretty m +:+ " records with missing values".
Proof.
  intros Heq. apply (inj (String.app "Removed ")) in Heq.
  change (pretty n +:+ " duplicate records"
          = pretty m +:+ (" records w" +:+ "ith missing values")) in Heq.
  rewrite <- string_app_assoc in Heq.
  by apply string_app_inj_2 in Heq as [_ ?].
Qed.

Lemma missing_note_inj (n m : Z) :
  "Removed " +:+ pretty n +:+ " records with missing values"
  = "Removed " +:+ pretty m +:+ " records with missing values" → n = m.
Proof.
  intros Heq. apply (inj (String.app "Removed ")) in Heq.
  apply string_app_inj_2 in Heq as [Heq _]; [|done].
  by apply (inj pretty) in Heq.
Qed.

(** C10. A note on missing values is appended exactly when some cell of
    the table is missing, and the number in it is the number of rows that
    remain after the removal. *)
Theorem missing_note_reports_survivors df :
  (Exists (λ r, has_null r = true) (rows df) ↔
     ∃ n : Z, "Removed " +:+ pretty n +:+ " records with missing values"
              ∈ (clean_dataframe df).2)
  ∧ (∀ n : Z, "Removed " +:+ pretty n +:+ " records with missing values"
              ∈ (clean_dataframe df).2 →
              n = Z.of_nat (length (rows (clean_dataframe df).1))).
Proof.
  rewrite clean_dataframe_errors.
  assert (Hin : ∀ n : Z,
    "Removed " +:+ pretty n +:+ " records with missing values"
      ∈ duplicate_note df ++ missing_note df →
    Exists (λ r, has_null r = true) (rows df)
    ∧ n = Z.of_nat (length (rows (clean_dataframe df).1))).
  { intros n [Hd|Hm]%elem_of_app.
    - unfold duplicate_note in Hd. case_bool_decide; [|by apply elem_of_nil in Hd].
      apply list_elem_of_singleton in Hd. symmetry in Hd.
      by apply notes_distinct in Hd.
    - unfold missing_note in Hm. case_bool_decide; [|by apply elem_of_nil in Hm].
      apply list_elem_of_singleton in Hm. split; [done|].
      by apply missing_note_inj in Hm. }
  split; [split|].
  - intros Hex. exists (len (clean_dataframe df).1).
    apply elem_of_app. right. unfold missing_note.
    rewrite bool_decide_eq_true_2 by done. apply list_elem_of_singleton. done.
  - intros [n Hn]. by apply Hin in Hn as [? _].
  - intros n Hn. by apply Hin in Hn as [_ ?].
Qed.
End Cleaner.

(** ** The upload handler: extension check, parse failures, counts *)

Section Upload.
Context `{Library}.
Implicit Types (file : UploadFile) (db : Db) (df : DataFrame).

(** What [store_processed_data] does, by cases on the frame. *)
Lemma store_processed_data_spec df source db :
  store_processed_data df source db =
    let records := imap (add_metadata source) (to_dict_records df) in
    if bool_decide (rows df = []) then
      (db, HTTPException 500
             ("Error storing data: " +:+ "documents must be a non-empty list"))
    else if forallb encodable records then
      ({| ecommerce_data := ecommerce_data db ++ records;
          processing_logs := processing_logs db |},
       Ok (len df))
    else
      (db, HTTPException 500 ("Error storing data: " +:+ bson_error records)).
Proof.
  unfold store_processed_data, to_dict_records, insert_many, len. cbv zeta.
  destruct (rows df) as [|r l]; [done|].
  rewrite bool_decide_eq_false_2 by done.
  rewrite length_imap, length_fmap, fmap_cons, imap_cons.
  by destruct (forallb encodable _).
Qed.

(** The log entry and the answer of an upload that ran to its end. *)
Definition completed_log file (original_count stored : Z) (notes : list string)
  : ProcessingLog :=
  {| log_id := uuid4 0;
     log_filename := filename file;
     status := "completed";
     records_processed := stored;
     records_failed := original_count - stored;
     errors := notes;
     timestamp := utcnow;
     processing_time := Some total_seconds |}.

Definition failed_log file (e : string) : ProcessingLog :=
  {| log_id := uuid4 0;
     log_filename := filename file;
     status := "failed";
     records_processed := 0;
     records_failed := 0;
     errors := [e];
     timestamp := utcnow;
     processing_time := Some total_seconds |}.

(** The handler on a file that passed the extension check and parsed. *)
Lemma upload_file_parsed file db text df :
  endswith (filename file) ".csv" = true →
  decode_utf8 (content file) = Returned text →
  read_csv text = Returned df →
  let cleaned := clean_dataframe df in
  let standard := standardize_schema cleaned.1 in
  let notes := cleaned.2 ++ standard.2 in
  let records := imap (add_metadata (filename file)) (to_dict_records standard.1) in
  upload_file file db =
    if bool_decide (rows standard.1 = []) then
      (insert_one
         (failed_log file
            (str_http_exception 500
               ("Error storing data: " +:+ "documents must be a non-empty list"))) db,
       HTTPException 500
         ("Error processing file: " +:+
          str_http_exception 500
            ("Error storing data: " +:+ "documents must be a non-empty list")))
    else if forallb encodable records then
      (insert_one (completed_log file (len df) (len standard.1) notes)
         {| ecommerce_data := ecommerce_data db ++ records;
            processing_logs := processing_logs db |},
       Ok {| message := "File processed successfully";
             res_records_processed := len standard.1;
             res_records_failed := len df - len standard.1;
             res_errors := notes;
             res_processing_time := total_seconds |})
    else
      (insert_one
         (failed_log file
            (str_http_exception 500
               ("Error storing data: " +:+ bson_error records))) db,
       HTTPException 500
         ("Error processing file: " +:+
          str_http_exception 500
            ("Error storing data: " +:+ bson_error records))).
Proof.
  intros Hext Hdec Hread. unfold upload_file.
  rewrite Hext, Hdec, Hread. cbn [negb].
  destruct (clean_dataframe df) as [df1 e1]; cbn [fst snd].
  destruct (standardize_schema df1) as [df2 e2]; cbn [fst snd].
  rewrite store_processed_data_spec. cbv zeta.
  case_bool_decide; [done|]. by destruct (forallb encodable _).
Qed.

(** C3. When an upload completes, the two counts it returns, and the two
    counts of the log entry it writes, add up to the number of data rows
    parsed from the file. *)
Theorem upload_counts_add_up file db db' res text df :
  decode_utf8 (content file) = Returned text →
  read_csv text = Returned df →
  upload_file file db = (db', Ok res) →
  res_records_processed res + res_records_failed res = len df
  ∧ ∃ entry, processing_logs db' = processing_logs db ++ [entry]
      ∧ status entry = "completed"
      ∧ records_processed entry = res_records_processed res
      ∧ records_failed entry = res_records_failed res
      ∧ records_processed entry + records_failed entry = len df.
Proof.
  intros Hdec Hread Hup.
  destruct (endswith (filename file) ".csv") eqn:Hext.
  - rewrite (upload_file_parsed _ _ _ _ Hext Hdec Hread) in Hup.
    case_bool_decide; [done|]. destruct (forallb encodable _); [|done].
    injection Hup as <- <-. simpl.
    split; [lia|]. eexists. split; [done|]. simpl. repeat split; lia.
  - unfold upload_file in Hup. by rewrite Hext in Hup.
Qed.

(** C6. A file whose name does not end in [.csv] is refused with status
    400 and the database is left as it was: no row and no log entry is
    written.  A file whose name ends in [.csv] passes the check: the
    handler goes on and writes a log entry, and the 400 answer is not
    given. *)
Theorem upload_checks_extension file db :
  ((∀ p, filename file ≠ p +:+ ".csv") →
     upload_file file db = (db, HTTPException 400 "Only CSV files are supported"))
  ∧ ((∃ p, filename file = p +:+ ".csv") →
     (∃ entry, processing_logs (upload_file file db).1
               = processing_logs db ++ [entry])
     ∧ ∀ detail, (upload_file file db).2 ≠ HTTPException 400 detail).
Proof.
  split.
  - intros Hno. unfold upload_file.
    destruct (endswith (filename file) ".csv") eqn:Hext; [|done].
    apply endswith_spec in Hext as [p Hp]. by destruct (Hno p).
  - intros Hsuf. apply endswith_spec in Hsuf. unfold upload_file.
    rewrite Hsuf. cbn [negb].
    destruct (decode_utf8 (content file)) as [text|e]; [|by eauto].
    destruct (read_csv text) as [df|e]; [|by eauto].
    destruct (clean_dataframe df) as [df1 e1].
    destruct (standardize_schema df1) as [df2 e2].
    rewrite store_processed_data_spec. cbv zeta.
    case_bool_decide; [simpl; by eauto|].
    destruct (forallb encodable _); simpl; by eauto.
Qed.

(** C9. When the content of an accepted file does not decode as UTF-8,
    or does not parse as CSV, the handler writes one log entry with status
    [failed] whose only diagnostic is the message of the exception, stores
    no row, and raises status 500 carrying that message. *)
Theorem parse_failure_is_logged file db msg :
  (∃ p, filename file = p +:+ ".csv") →
  (decode_utf8 (content file) = Raised msg
   ∨ ∃ text, decode_utf8 (content file) = Returned text
             ∧ read_csv text = Raised msg) →
  ∃ entry,
    upload_file file db =
      ({| ecommerce_data := ecommerce_data db;
          processing_logs := processing_logs db ++ [entry] |},
       HTTPException 500 ("Error processing file: " +:+ msg))
    ∧ status entry = "failed"
    ∧ errors entry = [msg]
    ∧ log_filename entry = filename file.
Proof.
  intros Hsuf%endswith_spec Hfail. exists (failed_log file msg).
  split; [|done]. unfold upload_file. rewrite Hsuf. simpl.
  destruct Hfail as [->|(text & -> & ->)]; done.
Qed.
End Upload.

(** ** The analytics handler on an empty store *)

Section EmptyState.
Context `{Library}.

(** C7. With no order line in the store the handler sends the count
    request only and answers with the empty-state body, whose
    [total_records] is 0; this is also the answer after [clear_all_data]. *)
Theorem analytics_empty_state (db : Db) :
  (ecommerce_data db = [] →
     get_analytics_overview db =
       ([CountDocuments],
        Ok (NoData 0 "No data available. Please upload a CSV file first.")))
  ∧ get_analytics_overview (clear_all_data db).1 =
      ([CountDocuments],
       Ok (NoData 0 "No data available. Please upload a CSV file first.")).
Proof.
  split; [intros Hempty; unfold get_analytics_overview; by rewrite Hempty|done].
Qed.
End EmptyState.

(** ** The schema stage *)

Section SchemaProperties.
Context `{Library}.
Implicit Types (df : DataFrame) (r : list cell) (name : string).

(** every row has one cell per column *)
Definition rectangular df : Prop :=
  Forall (λ r, length r = length (columns df)) (rows df).

(** the columns the type conversion writes to *)
Definition coerced : list string :=
  ["quantity"; "unit_price"; "total_price"; "order_date"].

(** a missing cell sits under a coerced column *)
Definition nulls_confined df : Prop :=
  ∀ r j, r ∈ rows df → r !! j = Some Null →
    ∃ k, columns df !! j = Some k ∧ k ∈ coerced.

(** in every row, a cell under [total_price] is the product of the cells
    under [quantity] and [unit_price] *)
Definition totals_agree df : Prop :=
  ∀ r jq jp jt q p t, r ∈ rows df →
    columns df !! jq = Some "quantity" →
    columns df !! jp = Some "unit_price" →
    columns df !! jt = Some "total_price" →
    r !! jq = Some q → r !! jp = Some p → r !! jt = Some t →
    t = mul_cell q p.

(** *** A Hoare rule set for [try] blocks

    [triple P m Qn Qe]: run from a frame satisfying [P], the block [m]
    either returns [a] in a frame satisfying [Qn a], or raises in a frame
    satisfying [Qe]. *)
Definition triple {A} (P : DataFrame → Prop) (m : try_block A)
    (Qn : A → DataFrame → Prop) (Qe : DataFrame → Prop) : Prop :=
  ∀ df, P df →
    match m df with
    | (df', Returned a) => Qn a df'
    | (df', Raised _) => Qe df'
    end.

Lemma triple_bind {A B} P (m : try_block A) (k : A → try_block B) Qm Qn Qe :
  triple P m Qm Qe →
  (∀ a, triple (Qm a) (k a) Qn Qe) →
  triple P (m ≫= k) Qn Qe.
Proof.
  intros Hm Hk df HP. unfold mbind, try_bind. specialize (Hm df HP).
  destruct (m df) as [df' [a|e]]; [by apply Hk|done].
Qed.

Lemma triple_when test body P (Q : unit → DataFrame → Prop) Qe :
  triple (λ df, P df ∧ test (columns df) = true) body Q Qe →
  (∀ df, P df → test (columns df) = false → Q () df) →
  triple P (when_columns test body) Q Qe.
Proof.
  intros Hbody Hskip df HP. unfold when_columns.
  destruct (test (columns df)) eqn:Htest; [by apply Hbody|by apply Hskip].
Qed.

Lemma elem_of_positions name (cols : list string) j :
  j ∈ positions name cols ↔ cols !! j = Some name.
Proof.
  unfold positions. rewrite list_elem_of_filter, elem_of_seq. split; [tauto|].
  intros Hj. split; [done|]. apply lookup_lt_Some in Hj. lia.
Qed.

(** [df[name]] returns the one column labelled [name] and leaves the
    frame as it is. *)
Lemma triple_getitem name what P Qe :
  (∀ df, P df → Qe df) →
  triple P (getitem name what)
    (λ vals df, P df ∧ ∃ j, positions name (columns df) = [j]
                            ∧ vals = column_at j df) Qe.
Proof.
  intros HPQ df HP. unfold getitem.
  destruct (positions name (columns df)) as [|j [|j' l]] eqn:Hpos; eauto.
Qed.

Lemma setitem_returns name values df : (setitem name values df).2 = Returned ().
Proof. unfold setitem. by case_bool_decide. Qed.

Lemma triple_setitem name values P (Q : unit → DataFrame → Prop) Qe :
  (∀ df, P df → Q () (setitem name values df).1) →
  triple P (setitem name values) Q Qe.
Proof.
  intros HPQ df HP. specialize (HPQ df HP).
  pose proof (setitem_returns name values df) as Hret.
  destruct (setitem name values df) as [df' [[]|e]]; simpl in *; [done|discriminate].
Qed.

(** *** What an assignment to a column changes *)

Lemma setitem_columns name values df :
  columns (setitem name values df).1 =
    if bool_decide (name ∈ columns df) then columns df else columns df ++ [name].
Proof. unfold setitem. by case_bool_decide. Qed.

Lemma setitem_columns_subseteq name values df :
  columns df ⊆ columns (setitem name values df).1.
Proof. rewrite setitem_columns. case_bool_decide; set_solver. Qed.

Lemma setitem_keeps_absent name other values df :
  other ≠ name → other ∉ columns df →
  other ∉ columns (setitem name values df).1.
Proof. rewrite setitem_columns. case_bool_decide; set_solver. Qed.

(** A row of the frame after the assignment comes from a row before it:
    either the cells under [name] were overwritten, or one cell was
    appended. *)
Lemma elem_of_setitem_rows name values df r' :
  r' ∈ rows (setitem name values df).1 →
  ∃ r v, r ∈ rows df ∧
    if bool_decide (name ∈ columns df)
    then r' = imap (λ j c, if bool_decide (columns df !! j = Some name)
                           then v else c) r
    else r' = r ++ [v].
Proof.
  unfold setitem. case_bool_decide; simpl;
    intros (i & r & -> & Hr)%elem_of_lookup_imap;
    exists r; eexists; (split; [by eapply list_elem_of_lookup_2|done]).
Qed.

Lemma setitem_rectangular name values df :
  rectangular df → rectangular (setitem name values df).1.
Proof.
  unfold rectangular. rewrite !Forall_forall. intros Hrect r' Hr'.
  apply elem_of_setitem_rows in Hr' as (r & v & Hr & Hr').
  rewrite setitem_columns. specialize (Hrect r Hr).
  case_bool_decide; subst r'.
  - by rewrite length_imap.
  - rewrite !length_app. simpl. lia.
Qed.

Lemma setitem_nulls_confined name values df :
  name ∈ coerced → rectangular df → nulls_confined df →
  nulls_confined (setitem name values df).1.
Proof.
  intros Hname Hrect Hconf r' j Hr' Hnull.
  apply elem_of_setitem_rows in Hr' as (r & v & Hr & Hr').
  rewrite setitem_columns.
  pose proof (proj1 (Forall_forall _ _) Hrect r Hr) as Hlen.
  case_bool_decide; subst r'.
  - rewrite list_lookup_imap in Hnull.
    destruct (r !! j) as [c|] eqn:Hc; [|done]. simpl in Hnull.
    case_bool_decide; [by eauto|]. simplify_eq. by eapply Hconf.
  - apply lookup_snoc_Some in Hnull as [[Hlt Hnull]|[Heq _]].
    + destruct (Hconf r j Hr Hnull) as (k & Hk & Hin).
      exists k. split; [|done]. by apply lookup_app_l_Some.
    + exists name. split; [|done]. apply list_lookup_middle. congruence.
Qed.

Lemma setitem_totals_other name values df :
  name ∉ ["quantity"; "unit_price"; "total_price"] →
  rectangular df → totals_agree df →
  totals_agree (setitem name values df).1.
Proof.
  intros Hname Hrect Htot r' jq jp jt q p t Hr' Hcq Hcp Hct Hq Hp Ht.
  apply elem_of_setitem_rows in Hr' as (r & v & Hr & Hr').
  rewrite setitem_columns in Hcq, Hcp, Hct.
  pose proof (proj1 (Forall_forall _ _) Hrect r Hr) as Hlen. simpl in Hlen.
  assert (name ≠ "quantity" ∧ name ≠ "unit_price" ∧ name ≠ "total_price")
    as (Hn1 & Hn2 & Hn3) by set_solver.
  case_bool_decide; subst r'.
  - rewrite list_lookup_imap in Hq, Hp, Ht.
    destruct (r !! jq) as [cq|] eqn:Hrq; [|done].
    destruct (r !! jp) as [cp|] eqn:Hrp; [|done].
    destruct (r !! jt) as [ct|] eqn:Hrt; [|done].
    simpl in Hq, Hp, Ht.
    rewrite bool_decide_eq_false_2 in Hq by congruence.
    rewrite bool_decide_eq_false_2 in Hp by congruence.
    rewrite bool_decide_eq_false_2 in Ht by congruence.
    simplify_eq. by eapply Htot.
  - apply lookup_snoc_Some in Hcq as [[Hlq Hcq]|[_ ?]]; [|congruence].
    apply lookup_snoc_Some in Hcp as [[Hlp Hcp]|[_ ?]]; [|congruence].
    apply lookup_snoc_Some in Hct as [[Hlt Hct]|[_ ?]]; [|congruence].
    rewrite lookup_app_l in Hq, Hp, Ht by lia. by eapply Htot.
Qed.

(** The assignment of the product column makes the totals agree. *)
Lemma setitem_total_price df jq jp :
  "total_price" ∉ columns df → rectangular df →
  positions "quantity" (columns df) = [jq] →
  positions "unit_price" (columns df) = [jp] →
  totals_agree
    (setitem "total_price"
       (zip_with mul_cell (column_at jq df) (column_at jp df)) df).1.
Proof.
  intros Habs Hrect Hposq Hposp r' jq' jp' jt q p t Hr' Hcq Hcp Hct Hq Hp Ht.
  unfold setitem in *. rewrite bool_decide_eq_false_2 in * by done.
  simpl in *. apply elem_of_lookup_imap in Hr' as (i & r & -> & Hr).
  pose proof (proj1 (Forall_lookup _ _) Hrect i r Hr) as Hlen. simpl in Hlen.
  apply lookup_snoc_Some in Hcq as [[Hlq Hcq]|[_ ?]]; [|congruence].
  apply lookup_snoc_Some in Hcp as [[Hlp Hcp]|[_ ?]]; [|congruence].
  apply lookup_snoc_Some in Hct as [[_ Hct]|[Hjt _]];
    [by apply list_elem_of_lookup_2 in Hct|].
  apply elem_of_positions in Hcq, Hcp. rewrite Hposq in Hcq. rewrite Hposp in Hcp.
  apply list_elem_of_singleton in Hcq as ->, Hcp as ->.
  rewrite lookup_app_l in Hq, Hp by lia.
  rewrite Hjt, <- Hlen, list_lookup_middle in Ht by done.
  injection Ht as <-.
  rewrite lookup_zip_with. unfold column_at.
  rewrite !list_lookup_fmap, Hr. simpl. by rewrite Hq, Hp.
Qed.

(** *** The [try] block of [standardize_schema] *)

Definition before_conversion df : Prop :=
  rectangular df ∧ nulls_confined df ∧ "total_price" ∉ columns df.

Definition after_conversion df : Prop :=
  rectangular df ∧ nulls_confined df ∧ totals_agree df.

Definition has_price_columns df : Prop :=
  "quantity" ∈ columns df ∧ "unit_price" ∈ columns df
  ∧ "total_price" ∈ columns df.

(** what holds of the frame whichever way the block is left *)
Definition exit_conversion df : Prop :=
  after_conversion df ∧ ("total_price" ∈ columns df → has_price_columns df).

Lemma before_exit_conversion df : before_conversion df → exit_conversion df.
Proof.
  intros (Hrect & Hconf & Habs). split; [|done]. repeat split; [done..|].
  intros r jq jp jt q p t _ _ _ Hct. by apply list_elem_of_lookup_2 in Hct.
Qed.

Lemma setitem_before_conversion name values df :
  name ∈ ["quantity"; "unit_price"] →
  before_conversion df → before_conversion (setitem name values df).1.
Proof.
  intros Hname (Hrect & Hconf & Habs). repeat split.
  - by apply setitem_rectangular.
  - apply setitem_nulls_confined; [|done..]. unfold coerced. set_solver.
  - apply setitem_keeps_absent; [|done]. set_solver.
Qed.

Lemma positions_singleton_elem name (cols : list string) j :
  positions name cols = [j] → name ∈ cols.
Proof.
  intros Hpos. apply (list_elem_of_lookup_2 _ j), elem_of_positions.
  rewrite Hpos. by apply list_elem_of_singleton.
Qed.

Lemma convert_types_triple :
  triple before_conversion convert_types
    (λ _ df, after_conversion df ∧ has_price_columns df)
    exit_conversion.
Proof.
  unfold convert_types.
  (* quantity *)
  eapply triple_bind.
  { apply (triple_getitem _ _ before_conversion); apply before_exit_conversion. }
  intros q. simpl.
  apply (triple_bind _ _ _ (λ _ df, before_conversion df)).
  { apply triple_setitem. intros df [Hb _].
    apply setitem_before_conversion; [set_solver|done]. }
  intros _.
  (* unit_price *)
  eapply triple_bind.
  { apply (triple_getitem _ _ before_conversion); apply before_exit_conversion. }
  intros p. simpl.
  apply (triple_bind _ _ _ (λ _ df, before_conversion df)).
  { apply triple_setitem. intros df [Hb _].
    apply setitem_before_conversion; [set_solver|done]. }
  intros _.
  (* total_price *)
  apply (triple_bind _ _ _
           (λ _ df, after_conversion df ∧ has_price_columns df)).
  { apply triple_when.
    - eapply triple_bind.
      { apply (triple_getitem _ _ (λ df, before_conversion df ∧ _)).
        intros df [Hb _]. by apply before_exit_conversion. }
      intros q'. simpl. eapply triple_bind.
      { apply (triple_getitem _ _ (λ df, (before_conversion df ∧ _) ∧ _)).
        intros df [[Hb _] _]. by apply before_exit_conversion. }
      intros p'. simpl. apply triple_setitem.
      intros df ([[(Hrect & Hconf & Habs) _] (jq & Hjq & ->)] & jp & Hjp & ->).
      split; [repeat split|repeat split].
      + by apply setitem_rectangular.
      + apply setitem_nulls_confined; [|done..]. unfold coerced. set_solver.
      + by apply setitem_total_price.
      + apply setitem_columns_subseteq. by eapply positions_singleton_elem.
      + apply setitem_columns_subseteq. by eapply positions_singleton_elem.
      + rewrite setitem_columns, bool_decide_eq_false_2 by done. set_solver.
    - intros df (_ & _ & Habs) Htest.
      apply bool_decide_eq_false in Htest. by destruct Htest. }
  intros _.
  (* order_date *)
  apply triple_when; [|tauto].
  eapply triple_bind.
  { apply (triple_getitem _ _ (λ df, (after_conversion df ∧ _) ∧ _)).
    intros df [[Ha Hh] _]. by split. }
  intros d. simpl. apply triple_setitem.
  intros df [[[(Hrect & Hconf & Htot) (Hq & Hp & Ht)] _] _].
  split; [repeat split|repeat split].
  - by apply setitem_rectangular.
  - apply setitem_nulls_confined; [|done..]. unfold coerced. set_solver.
  - apply setitem_totals_other; [|done..]. set_solver.
  - by apply setitem_columns_subseteq.
  - by apply setitem_columns_subseteq.
  - by apply setitem_columns_subseteq.
Qed.

(** An invariant of every assignment the block can perform is an
    invariant of the block, on both exits. *)
Lemma convert_types_invariant (I : DataFrame → Prop) :
  (∀ name values df,
     name ∈ ["quantity"; "unit_price"; "order_date"] →
     I df → I (setitem name values df).1) →
  (∀ values df,
     I df → "total_price" ∉ columns df →
     I (setitem "total_price" values df).1) →
  triple I convert_types (λ _, I) I.
Proof.
  intros Hset Htotal. unfold convert_types.
  eapply triple_bind; [by apply (triple_getitem _ _ I)|]. intros q. simpl.
  apply (triple_bind _ _ _ (λ _, I)).
  { apply triple_setitem. intros df [HI _]. apply Hset; [set_solver|done]. }
  intros _.
  eapply triple_bind; [by apply (triple_getitem _ _ I)|]. intros p. simpl.
  apply (triple_bind _ _ _ (λ _, I)).
  { apply triple_setitem. intros df [HI _]. apply Hset; [set_solver|done]. }
  intros _.
  apply (triple_bind _ _ _ (λ _, I)).
  { apply triple_when; [|done].
    eapply triple_bind.
    { apply (triple_getitem _ _ (λ df, I df ∧ _)). by intros df [HI _]. }
    intros q'. simpl. eapply triple_bind.
    { apply (triple_getitem _ _ (λ df, (I df ∧ _) ∧ _)). by intros df [[HI _] _]. }
    intros p'. simpl. apply triple_setitem.
    intros df [[[HI Htest] _] _]. apply Htotal; [done|].
    by apply bool_decide_eq_true in Htest. }
  intros _.
  apply triple_when; [|done].
  eapply triple_bind.
  { apply (triple_getitem _ _ (λ df, I df ∧ _)). by intros df [HI _]. }
  intros d. simpl. apply triple_setitem.
  intros df [[HI _] _]. apply Hset; [set_solver|done].
Qed.

Lemma setitem_row_count name values df :
  length (rows (setitem name values df).1) = length (rows df).
Proof. unfold setitem. case_bool_decide; simpl; by rewrite length_imap. Qed.

Lemma convert_types_row_count df :
  length (rows (convert_types df).1) = length (rows df).
Proof.
  pose proof (convert_types_invariant
                (λ df', length (rows df') = length (rows df))) as Hinv.
  unfold triple in Hinv. specialize (Hinv
    ltac:(intros; by rewrite setitem_row_count)
    ltac:(intros; by rewrite setitem_row_count) df eq_refl).
  by destruct (convert_types df) as [df' [[]|e]].
Qed.

(** *** Column labels after normalisation *)

Lemma has_char_remove_char c s : has_char c (remove_char c s) = false.
Proof.
  induction s as [|a s IH]; simpl; [done|].
  destruct (Ascii.eqb a c) eqn:Hac; simpl; [done|]. by rewrite Hac.
Qed.

Lemma column_mappings_values k v :
  column_mappings !! k = Some v → has_char "_" k = false ∧ v ≠ "total_price".
Proof.
  intros Hkv. apply elem_of_list_to_map_2 in Hkv.
  assert (Forall (λ kv : string * string,
            has_char "_" kv.1 = false ∧ kv.2 ≠ "total_price")
            column_mappings_items) as Hall by (repeat constructor; done).
  rewrite Forall_forall in Hall. exact (Hall _ Hkv).
Qed.

(** No column is labelled [total_price] once the labels are normalised
    and mapped: normalisation strips the underscore, and no synonym maps
    to that label. *)
Lemma total_price_not_normalized (cols : list string) :
  "total_price" ∉ rename_column <$> (normalize_column <$> cols).
Proof.
  intros (n & Hn & (c & -> & _)%list_elem_of_fmap)%list_elem_of_fmap.
  unfold rename_column in Hn.
  destruct (column_mappings !! normalize_column c) as [v|] eqn:Hv; simpl in Hn.
  - apply column_mappings_values in Hv as [_ Hv]. by subst v.
  - pose proof (has_char_remove_char "_" (remove_char " " (lower c))) as Hc.
    fold (normalize_column c) in Hc. by rewrite <- Hn in Hc.
Qed.

(** *** [standardize_schema] by cases *)

(** the frame once its labels are normalised and mapped *)
Definition renamed df : DataFrame :=
  {| columns := rename_column <$> (normalize_column <$> columns df);
     rows := rows df |}.

Definition missing_columns df : list string :=
  filter (λ col, col ∉ columns (renamed df)) required_columns.

Lemma standardize_schema_missing df :
  missing_columns df ≠ [] →
  standardize_schema df =
    (renamed df,
     ["Missing required columns: " +:+ repr_list (missing_columns df)]).
Proof.
  intros Hmiss. unfold standardize_schema.
  fold (renamed df). fold (missing_columns df).
  by rewrite bool_decide_eq_true_2.
Qed.

Lemma standardize_schema_present df :
  missing_columns df = [] →
  standardize_schema df =
    match convert_types (renamed df) with
    | (df', Returned _) => (df', [])
    | (df', Raised e) => (df', ["Error converting data types: " +:+ e])
    end.
Proof.
  intros Hmiss. unfold standardize_schema.
  fold (renamed df). fold (missing_columns df).
  by rewrite bool_decide_eq_false_2 by (by intros ?).
Qed.

Lemma no_null_lookup r j : has_null r = false → r !! j ≠ Some Null.
Proof.
  unfold has_null. intros Hr Hj. apply list_elem_of_lookup_2 in Hj.
  apply list_elem_of_In in Hj.
  assert (existsb isnull r = true) by (apply existsb_exists; by exists Null).
  congruence.
Qed.

Lemma renamed_before_conversion df :
  rectangular df → Forall (λ r, has_null r = false) (rows df) →
  before_conversion (renamed df).
Proof.
  intros Hrect Hclean. repeat split.
  - unfold rectangular, renamed. simpl. by rewrite !length_fmap.
  - intros r j Hr Hj. simpl in Hr.
    rewrite Forall_forall in Hclean. by destruct (no_null_lookup r j (Hclean r Hr)).
  - apply total_price_not_normalized.
Qed.

Lemma standardize_schema_post df :
  rectangular df → Forall (λ r, has_null r = false) (rows df) →
  exit_conversion (standardize_schema df).1
  ∧ ((standardize_schema df).2 = [] → has_price_columns (standardize_schema df).1)
  ∧ length (rows (standardize_schema df).1) = length (rows df).
Proof.
  intros Hrect Hclean.
  pose proof (renamed_before_conversion df Hrect Hclean) as Hbefore.
  destruct (decide (missing_columns df = [])) as [Hmiss|Hmiss].
  - rewrite (standardize_schema_present df Hmiss).
    pose proof (convert_types_triple _ Hbefore) as Htriple.
    pose proof (convert_types_row_count (renamed df)) as Hcount.
    destruct (convert_types (renamed df)) as [df' [[]|e]]; simpl in *.
    + destruct Htriple as [Hafter Hhas]. by split_and!.
    + by split_and!.
  - rewrite (standardize_schema_missing df Hmiss). simpl.
    split; [by apply before_exit_conversion|done].
Qed.
End SchemaProperties.

(** ** Stored records *)

Section StoredRecords.
Context `{Library}.
Implicit Types (df : DataFrame) (r : list cell) (rec : gmap string cell).

Lemma foldl_insert_lookup_Some (l : list (string * cell)) rec k v :
  foldl (λ m kv, <[kv.1 := kv.2]> m) rec l !! k = Some v →
  rec !! k = Some v ∨ (k, v) ∈ l.
Proof.
  revert rec. induction l as [|[k' v'] l IH]; intros rec; simpl; [by left|].
  intros [Hk|Hk]%IH; [|right; by right].
  apply lookup_insert_Some in Hk as [[<- <-]|[_ Hk]]; [right; by left|by left].
Qed.

Lemma foldl_insert_lookup_is_Some (l : list (string * cell)) rec k :
  k ∈ l.*1 ∨ is_Some (rec !! k) →
  is_Some (foldl (λ m kv, <[kv.1 := kv.2]> m) rec l !! k).
Proof.
  revert rec. induction l as [|[k' v'] l IH]; intros rec; simpl.
  - intros [Hk|Hk]; [by apply elem_of_nil in Hk|done].
  - intros [Hk|Hk]; apply IH.
    + apply elem_of_cons in Hk as [->|Hk]; [right|by left].
      simpl. rewrite lookup_insert_eq. by eexists.
    + right. simpl. rewrite lookup_insert_is_Some.
      destruct (decide (k' = k)); [by left|by right].
Qed.

(** A value of the record of a row is a cell of the row, under a column
    that carries the key. *)
Lemma to_dict_lookup_Some (cols : list string) r k v :
  to_dict cols r !! k = Some v →
  ∃ j, cols !! j = Some k ∧ r !! j = Some v.
Proof.
  unfold to_dict. intros [Hk|Hk]%foldl_insert_lookup_Some; [done|].
  apply elem_of_lookup_zip_with in Hk as (j & x & y & [= -> ->] & Hx & Hy).
  by exists j.
Qed.

Lemma to_dict_lookup_is_Some (cols : list string) r k :
  length r = length cols → k ∈ cols → is_Some (to_dict cols r !! k).
Proof.
  intros Hlen Hk. apply foldl_insert_lookup_is_Some. left.
  rewrite fst_zip by lia. done.
Qed.

(** The metadata keys do not touch the other keys, and no metadata value
    is missing. *)
Lemma add_metadata_lookup_other source i rec k :
  k ∉ ["_id"; "source_file"; "processed_at"; "order_date"] →
  add_metadata source i rec !! k = rec !! k.
Proof.
  intros Hk. unfold add_metadata.
  assert (k ≠ "_id" ∧ k ≠ "source_file" ∧ k ≠ "processed_at" ∧ k ≠ "order_date")
    as (? & ? & ? & ?) by set_solver.
  repeat case_match; by rewrite ?lookup_insert_ne by done.
Qed.


Lemma elem_of_stored_records source df rec :
  rec ∈ imap (add_metadata source) (to_dict_records df) →
  ∃ i r, r ∈ rows df ∧ rec = add_metadata source i (to_dict (columns df) r).
Proof.
  intros (i & d & -> & Hd)%elem_of_lookup_imap. unfold to_dict_records in Hd.
  apply list_lookup_fmap_Some in Hd as (r & -> & Hr).
  exists i, r. split; [by eapply list_elem_of_lookup_2|done].
Qed.

Lemma clean_dataframe_rectangular df :
  rectangular df → rectangular (clean_dataframe df).1.
Proof.
  unfold rectangular. rewrite clean_dataframe_columns, !Forall_forall.
  intros Hrect r Hr. apply Hrect. by apply clean_dataframe_rows_subseteq.
Qed.

(** What a completed upload has stored: one record per row the cleaner
    kept, built from the frame the schema stage returned. *)
Lemma upload_file_completed file db db' res text df :
  decode_utf8 (content file) = Returned text →
  read_csv text = Returned df →
  upload_file file db = (db', Ok res) →
  let standard := standardize_schema (clean_dataframe df).1 in
  ecommerce_data db' =
    ecommerce_data db ++
    imap (add_metadata (filename file)) (to_dict_records standard.1)
  ∧ res_records_processed res = len (clean_dataframe df).1
  ∧ res_errors res = (clean_dataframe df).2 ++ standard.2
  ∧ exit_conversion standard.1
  ∧ (standard.2 = [] → has_price_columns standard.1).
Proof.
  intros Hdec Hread Hup standard.
  destruct (endswith (filename file) ".csv") eqn:Hext;
    [|unfold upload_file in Hup; by rewrite Hext in Hup].
  rewrite (upload_file_parsed _ _ _ _ Hext Hdec Hread) in Hup.
  case_bool_decide; [done|]. destruct (forallb encodable _); [|done].
  injection Hup as <- <-. simpl.
  destruct (standardize_schema_post (clean_dataframe df).1) as (Hexit & Hhas & Hcount).
  { apply clean_dataframe_rectangular. by eapply read_csv_rectangular. }
  { apply clean_dataframe_no_null. }
  split_and!; try done. exact (f_equal Z.of_nat Hcount).
Qed.
End StoredRecords.

(** a literal key is none of the literal keys of a list *)
Ltac other_key :=
  repeat (apply not_elem_of_cons; split; [discriminate|]); apply not_elem_of_nil.

(** ** A column already labelled [total_price] *)

Section StoredClaims.
Context `{Library}.
Implicit Types (file : UploadFile) (db : Db) (df : DataFrame).


End StoredClaims.

(** ** Rendered days sort like days *)

Lemma string_compare_cons (a b : ascii) (s t : string) :
  String.compare (String a s) (String b t) =
    match Ascii.compare a b with
    | Eq => String.compare s t
    | Lt => Lt
    | Gt => Gt
    end.
Proof. simpl. by destruct (Ascii.compare a b). Qed.

Lemma ascii_compare_digit (m n : nat) :
  Ascii.compare (digit m) (digit n) = Nat.compare (m mod 10) (n mod 10).
Proof.
  unfold Ascii.compare, digit, ascii_of_nat.
  pose proof (Nat.mod_upper_bound m 10). pose proof (Nat.mod_upper_bound n 10).
  rewrite !N_ascii_embedding by lia.
  rewrite <- Nat2N.inj_compare.
  destruct (Nat.compare_spec (m mod 10) (n mod 10));
    [apply Nat.compare_eq_iff|apply Nat.compare_lt_iff|apply Nat.compare_gt_iff]; lia.
Qed.

(** the facts of Euclidean division by [k] that [lia] needs about [n] *)
Ltac euclid n k :=
  pose proof (Nat.div_mod_eq n k);
  pose proof (Nat.mod_upper_bound n k ltac:(lia)).

Lemma two_digits_compare (m n : nat) (s t : string) :
  (m < 100)%nat → (n < 100)%nat →
  String.compare (two_digits m s) (two_digits n t) =
    match Nat.compare m n with
    | Eq => String.compare s t
    | Lt => Lt
    | Gt => Gt
    end.
Proof.
  intros Hm Hn. unfold two_digits.
  rewrite !string_compare_cons, !ascii_compare_digit.
  euclid m 10%nat. euclid n 10%nat. euclid (m / 10)%nat 10%nat. euclid (n / 10)%nat 10%nat.
  destruct (Nat.compare_spec ((m / 10) mod 10) ((n / 10) mod 10));
    destruct (Nat.compare_spec (m mod 10) (n mod 10));
    destruct (Nat.compare_spec m n); try done; lia.
Qed.

Lemma two_digits_mod (n : nat) (s : string) :
  two_digits n s = two_digits (n mod 100) s.
Proof.
  assert (((n mod 100) / 10) mod 10 = (n / 10) mod 10)%nat as Htens.
  { euclid n 100%nat. euclid n 10%nat. euclid (n mod 100)%nat 10%nat.
    euclid (n / 10)%nat 10%nat. euclid (n mod 100 / 10)%nat 10%nat. lia. }
  assert ((n mod 100) mod 10 = n mod 10)%nat as Hunits.
  { euclid n 100%nat. euclid n 10%nat. euclid (n mod 100)%nat 10%nat. lia. }
  unfold two_digits, digit. by rewrite Htens, Hunits.
Qed.

Lemma four_digits_compare (m n : nat) (s t : string) :
  (m < 100 * 100)%nat → (n < 100 * 100)%nat →
  String.compare (four_digits m s) (four_digits n t) =
    match Nat.compare m n with
    | Eq => String.compare s t
    | Lt => Lt
    | Gt => Gt
    end.
Proof.
  intros Hm Hn. unfold four_digits.
  rewrite (two_digits_mod m), (two_digits_mod n).
  euclid m 100%nat. euclid n 100%nat.
  rewrite two_digits_compare by lia. rewrite two_digits_compare by lia.
  destruct (Nat.compare_spec (m / 100) (n / 100));
    destruct (Nat.compare_spec (m mod 100) (n mod 100));
    destruct (Nat.compare_spec m n); try done; lia.
Qed.

(** On valid days the byte order of the rendered strings is the calendar
    order. *)
Lemma date_to_string_le (a b : day) :
  valid_day a → valid_day b →
  String.le (date_to_string a) (date_to_string b) ↔ day_le a b.
Proof.
  intros (Hya & Hma & Hda) (Hyb & Hmb & Hdb).
  unfold String.le, String.leb, date_to_string, day_le.
  rewrite four_digits_compare by done.
  rewrite string_compare_cons. change (Ascii.compare "-" "-") with Eq. cbv iota.
  rewrite two_digits_compare by lia.
  rewrite string_compare_cons. change (Ascii.compare "-" "-") with Eq. cbv iota.
  rewrite two_digits_compare by lia.
  change (String.compare "" "") with Eq.
  destruct (Nat.compare_spec (year a) (year b));
    destruct (Nat.compare_spec (month a) (month b));
    destruct (Nat.compare_spec (mday a) (mday b)); simpl; split; try done; lia.
Qed.

(** ** The analytics lists *)

(** calendar order on day keys, the null key first *)
Definition option_day_le (a b : option day) : Prop :=
  match a, b with
  | None, _ => True
  | Some _, None => False
  | Some x, Some y => day_le x y
  end.

Section AnalyticsProperties.
Context `{Library}.
Implicit Types (docs : list (gmap string cell)).

Global Instance sum_le_trans : Transitive sum_le.
Proof. intros [] [] []; simpl; try done. apply transitivity. Qed.

Global Instance sum_le_total : Total sum_le.
Proof. intros [] []; simpl; auto. apply total, _. Qed.

Global Instance key_le_trans : Transitive key_le.
Proof. intros [] [] []; simpl; try done. apply transitivity. Qed.

Global Instance key_le_total : Total key_le.
Proof. intros [] []; simpl; auto. apply total, _. Qed.

Global Instance by_revenue_desc_trans : Transitive by_revenue_desc.
Proof. unfold by_revenue_desc. intros a b c Hab Hbc. by etrans. Qed.
Global Instance by_revenue_desc_total : Total by_revenue_desc.
Proof. unfold by_revenue_desc. intros a b. destruct (total sum_le (pg_total_revenue a) (pg_total_revenue b)); auto. Qed.

Global Instance by_spent_desc_trans : Transitive by_spent_desc.
Proof. unfold by_spent_desc. intros a b c Hab Hbc. by etrans. Qed.
Global Instance by_spent_desc_total : Total by_spent_desc.
Proof. unfold by_spent_desc. intros a b. destruct (total sum_le (cg_total_spent a) (cg_total_spent b)); auto. Qed.

Global Instance by_id_asc_trans : Transitive by_id_asc.
Proof. unfold by_id_asc. intros a b c Hab Hbc. by etrans. Qed.
Global Instance by_id_asc_total : Total by_id_asc.
Proof. unfold by_id_asc. intros a b. apply (total key_le). Qed.

Lemma limit_length {A} n (l : list A) : (length (limit n l) ≤ n)%nat.
Proof. unfold limit. rewrite length_take. lia. Qed.

Lemma limit_subseteq {A} n (l : list A) : limit n l ⊆ l.
Proof. unfold limit. apply subseteq_take. Qed.

Lemma limit_sorted {A} (R : relation A) n (l : list A) :
  StronglySorted R l → StronglySorted R (limit n l).
Proof.
  unfold limit. intros Hl. rewrite <- (take_drop n l) in Hl.
  by apply StronglySorted_app_1_l in Hl.
Qed.

(** sorting and limiting: at most [n] items, all from the input, in
    order *)
Lemma limit_merge_sort {A} (R : relation A) `{!RelDecision R}
    `{!Transitive R} `{!Total R} n (l : list A) :
  (length (limit n (merge_sort R l)) ≤ n)%nat
  ∧ limit n (merge_sort R l) ⊆ l
  ∧ StronglySorted R (limit n (merge_sort R l)).
Proof.
  split; [apply limit_length|]. split.
  - intros x Hx%limit_subseteq. by rewrite merge_sort_Permutation in Hx.
  - apply limit_sorted, StronglySorted_merge_sort; apply _.
Qed.

Lemma collect_Forall2 {A B} (f : A → raises B) (l : list A) (l' : list B) :
  collect (f <$> l) = Returned l' → Forall2 (λ x y, f x = Returned y) l l'.
Proof.
  revert l'. induction l as [|x l IH]; intros l'; simpl.
  - intros [= <-]. constructor.
  - unfold mbind, raises_bind, mret, raises_ret.
    destruct (f x) as [y|e] eqn:Hx; [|done].
    fold (@fmap list _ A (raises B) f l).
    destruct (collect (f <$> l)) as [k|e]; simpl; [|done].
    intros [= <-]. constructor; [done|by apply IH].
Qed.

Lemma elem_of_group {K A} `{EqDecision K} (key : A → K) (items : list A) k l :
  (k, l) ∈ group key items →
  k ∈ key <$> items ∧ l = filter (λ d, key d = k) items.
Proof.
  unfold group. intros (k' & [= -> ->] & Hk)%list_elem_of_fmap.
  apply elem_of_drop_duplicates_from in Hk as [Hk _]. done.
Qed.

(** a key of the daily pipeline: null, or a valid day as rendered *)
Definition is_day_key (k : option string) : Prop :=
  ∃ d : option day, k = date_to_string <$> d ∧ from_option valid_day True d.

Lemma day_key_is_day_key (d : gmap string cell) k :
  day_key d = Returned k → is_day_key k.
Proof.
  unfold day_key. destruct (d !! "order_date") as [[| |n|s|t]|]; try done.
  - intros [= <-]. by exists None.
  - unfold mbind, raises_bind, mret, raises_ret.
    destruct (date_from_string s) as [x|e] eqn:Hx; [|done].
    intros [= <-]. exists (Some x). split; [done|].
    by eapply date_from_string_valid.
  - intros [= <-]. by exists None.
Qed.

Lemma key_le_option_day_le (a b : option day) :
  from_option valid_day True a → from_option valid_day True b →
  key_le (date_to_string <$> a) (date_to_string <$> b) → option_day_le a b.
Proof.
  destruct a as [a|], b as [b|].
  - intros Ha Hb Hle.
    change (String.le (date_to_string a) (date_to_string b)) in Hle.
    exact (proj1 (date_to_string_le a b Ha Hb) Hle).
  - intros _ _ Hle. exact Hle.
  - intros _ _ _. exact I.
  - intros _ _ _. exact I.
Qed.

(** Keys in the order of [$sort] are days in calendar order. *)
Lemma days_of_keys (ids : list (option string)) :
  Forall is_day_key ids → StronglySorted key_le ids →
  ∃ days : list (option day),
    ids = fmap (M:=option) date_to_string <$> days
    ∧ Forall (from_option valid_day True) days
    ∧ StronglySorted option_day_le days.
Proof.
  induction ids as [|k ids IH]; intros Hkeys Hsorted.
  - exists []. repeat split; constructor.
  - apply Forall_cons in Hkeys as [(d & -> & Hd) Hkeys].
    apply StronglySorted_cons in Hsorted as [Hk Hsorted].
    destruct (IH Hkeys Hsorted) as (days & -> & Hvalid & Hdays).
    exists (d :: days). split; [done|]. split; [by constructor|].
    apply StronglySorted_cons. split; [|done].
    rewrite Forall_fmap in Hk. rewrite Forall_forall in Hk, Hvalid.
    apply Forall_forall. intros d' Hd'.
    apply key_le_option_day_le; [done|by apply Hvalid|by apply Hk].
Qed.
End AnalyticsProperties.

Section AnalyticsLists.
Context `{Library}.

Lemma top_products_pipeline_spec (docs : list (gmap string cell)) :
  (length (top_products_pipeline docs) ≤ 5)%nat
  ∧ StronglySorted by_revenue_desc (top_products_pipeline docs)
  ∧ ∀ g, g ∈ top_products_pipeline docs →
      pg_total_revenue g =
        sum_field "total_price"
          (filter (λ d, (d !! "product_id", d !! "product_name") = pg_id g) docs).
Proof.
  unfold top_products_pipeline.
  destruct (limit_merge_sort by_revenue_desc 5
    ((λ g, {| pg_id := g.1;
              pg_total_quantity := sum_field "quantity" g.2;
              pg_total_revenue := sum_field "total_price" g.2;
              pg_order_count := Z.of_nat (length g.2) |}) <$>
     group (λ d, (d !! "product_id", d !! "product_name")) docs))
    as (Hlen & Hsub & Hsorted).
  split; [exact Hlen|]. split; [exact Hsorted|].
  intros g Hg%Hsub. apply list_elem_of_fmap in Hg as ([k l] & -> & Hkl).
  apply elem_of_group in Hkl as [_ ->]. done.
Qed.

Lemma top_customers_pipeline_spec (docs : list (gmap string cell)) :
  (length (top_customers_pipeline docs) ≤ 5)%nat
  ∧ StronglySorted by_spent_desc (top_customers_pipeline docs)
  ∧ ∀ g, g ∈ top_customers_pipeline docs →
      cg_total_spent g =
        sum_field "total_price"
          (filter (λ d, d !! "customer_id" = cg_id g) docs).
Proof.
  unfold top_customers_pipeline.
  destruct (limit_merge_sort by_spent_desc 5
    ((λ g, {| cg_id := g.1;
              cg_total_spent := sum_field "total_price" g.2;
              cg_order_count := Z.of_nat (length g.2) |}) <$>
     group (λ d, d !! "customer_id") docs))
    as (Hlen & Hsub & Hsorted).
  split; [exact Hlen|]. split; [exact Hsorted|].
  intros g Hg%Hsub. apply list_elem_of_fmap in Hg as ([k l] & -> & Hkl).
  apply elem_of_group in Hkl as [_ ->]. done.
Qed.

Lemma daily_revenue_pipeline_spec (docs : list (gmap string cell)) daily :
  daily_revenue_pipeline docs = Returned daily →
  (length daily ≤ 30)%nat
  ∧ StronglySorted key_le (dg_id <$> daily)
  ∧ Forall is_day_key (dg_id <$> daily).
Proof.
  unfold daily_revenue_pipeline, mbind, raises_bind, mret, raises_ret.
  destruct (collect (day_key <$> docs)) as [keys|e] eqn:Hkeys; [|done].
  cbv zeta. apply collect_Forall2 in Hkeys.
  match goal with |- context [limit 30 (merge_sort by_id_asc ?l)] =>
    destruct (limit_merge_sort by_id_asc 30 l) as (Hlen & Hsub & Hsorted);
    set (sorted := limit 30 (merge_sort by_id_asc l)) in *
  end.
  intros Heq. assert (daily = sorted) as -> by congruence. clear Heq.
  split; [exact Hlen|]. split.
  - eapply StronglySorted_fmap; [|exact Hsorted]. done.
  - apply Forall_fmap, Forall_forall. intros g Hg%Hsub.
    apply list_elem_of_fmap in Hg as ([k l] & -> & Hkl).
    apply elem_of_group in Hkl as [Hk _]. simpl.
    apply list_elem_of_fmap in Hk as ([k' d] & -> & Hkd).
    apply elem_of_zip_l in Hkd. simpl.
    apply list_elem_of_lookup in Hkd as [i Hi].
    destruct (Forall2_lookup_r _ _ _ _ _ Hkeys Hi) as (d' & _ & Hd').
    by eapply day_key_is_day_key.
Qed.

(** C8.  When the handler answers with the overview, [top_products] and
    [top_customers] have at most 5 entries each, in descending order of
    the total that [$sum] gives to the [total_price] of their group, and
    [daily_revenue] has at most 30 entries whose dates are the rendering
    of days in ascending calendar order, the null key first. *)
Theorem analytics_lists_bounded_sorted (db : Db) calls stats :
  get_analytics_overview db = (calls, Ok (Overview stats)) →
  (length (top_products stats) ≤ 5)%nat
  ∧ StronglySorted (flip sum_le) (pe_total_revenue <$> top_products stats)
  ∧ (∀ e, e ∈ top_products stats →
       pe_total_revenue e =
         sum_field "total_price"
           (filter (λ d, (d !! "product_id", d !! "product_name")
                         = (Some (product_id e), Some (product_name e)))
                   (ecommerce_data db)))
  ∧ (length (top_customers stats) ≤ 5)%nat
  ∧ StronglySorted (flip sum_le) (ce_total_spent <$> top_customers stats)
  ∧ (∀ e, e ∈ top_customers stats →
       ce_total_spent e =
         sum_field "total_price"
           (filter (λ d, d !! "customer_id" = customer_id e) (ecommerce_data db)))
  ∧ (length (daily_revenue stats) ≤ 30)%nat
  ∧ ∃ days : list (option day),
      date <$> daily_revenue stats = fmap (M:=option) date_to_string <$> days
      ∧ Forall (from_option valid_day True) days
      ∧ StronglySorted option_day_le days.
Proof.
  unfold get_analytics_overview. case_bool_decide; [done|].
  destruct (daily_revenue_pipeline (ecommerce_data db)) as [daily|e] eqn:Hdaily;
    [|done].
  destruct (collect (product_entry <$> top_products_pipeline (ecommerce_data db)))
    as [entries|e] eqn:Hentries; [|done].
  intros [= <- <-]. simpl.
  apply collect_Forall2 in Hentries.
  destruct (top_products_pipeline_spec (ecommerce_data db)) as (Hpl & Hps & Hpsum).
  destruct (top_customers_pipeline_spec (ecommerce_data db)) as (Hcl & Hcs & Hcsum).
  destruct (daily_revenue_pipeline_spec _ _ Hdaily) as (Hdl & Hds & Hdk).
  assert (Hrev : pe_total_revenue <$> entries
                 = pg_total_revenue <$> top_products_pipeline (ecommerce_data db)).
  { clear -Hentries. induction Hentries as [|g e gs es Hge _ IH]; [done|].
    simpl. f_equal; [|exact IH]. unfold product_entry in Hge.
    destruct (pg_id g) as [[?|] [?|]]; by simplify_eq. }
  split_and!.
  - by rewrite <- (Forall2_length _ _ _ Hentries).
  - rewrite Hrev. eapply StronglySorted_fmap; [|exact Hps]. done.
  - intros e (i & Hi)%list_elem_of_lookup.
    destruct (Forall2_lookup_r _ _ _ _ _ Hentries Hi) as (g & Hg & Hge).
    apply list_elem_of_lookup_2, Hpsum in Hg. unfold product_entry in Hge.
    destruct (pg_id g) as [[pid|] [pname|]] eqn:Hid; simplify_eq. simpl.
    exact Hg.
  - by rewrite length_fmap.
  - rewrite <- list_fmap_compose. eapply StronglySorted_fmap; [|exact Hcs]. done.
  - intros e (g & -> & Hg)%list_elem_of_fmap. simpl. by apply Hcsum.
  - by rewrite length_fmap.
  - rewrite <- list_fmap_compose.
    destruct (days_of_keys _ Hdk Hds) as (days & Hdays & Hvalid & Hsorted).
    exists days. split; [exact Hdays|done].
Qed.
End AnalyticsLists.

(** * The sample files, run through the handlers *)

(** Closed runs are decided on the virtual machine.  [run] checks an
    equation between closed terms; [run_at] replaces a closed term of the
    goal by its value, [run_in] does so for the left side of an equation
    among the hypotheses, and [run_ne] settles a disequation whose two
    sides evaluate to different constructors. *)
Ltac run :=
  lazymatch goal with
  | |- @eq ?T _ ?r => vm_cast_no_check (@eq_refl T r)
  end.

Ltac run_at l :=
  let v := eval vm_compute in l in
  let Hv := fresh in
  assert (Hv : l = v) by vm_cast_no_check (@eq_refl _ v);
  rewrite Hv; clear Hv.

Ltac run_in H :=
  lazymatch type of H with
  | ?l = _ =>
      let v := eval vm_compute in l in
      let Hv := fresh in
      assert (Hv : l = v) by vm_cast_no_check (@eq_refl _ v);
      rewrite Hv in H; clear Hv
  end.

Ltac run_ne :=
  lazymatch goal with
  | |- ?l ≠ _ => run_at l; discriminate
  end.

Section Runs.
Import Sample.

(** The header of the retail export maps onto the canonical labels. *)
Example retail_header :
  rename_column <$> (normalize_column <$>
    ["Invoice"; "StockCode"; "Description"; "Quantity"; "UnitPrice";
     "CustomerID"; "InvoiceDate"; "Country"; "Total_Price"])
  = ["order_id"; "product_id"; "product_name"; "quantity"; "unit_price";
     "customer_id"; "order_date"; "country"; "totalprice"].
Proof. run. Qed.

(** The suffix test is case sensitive. *)
Example upper_case_extension_refused :
  upload_file (upload "ORDERS.CSV" orders_csv) empty_db
  = (empty_db, HTTPException 400 "Only CSV files are supported").
Proof. run. Qed.

(** With the file of [gaps_csv] the cleaner removes one repeated row and
    one incomplete row, and its second note carries 3, the rows left.
    Dropping incomplete rows first would leave no repeated row to
    count. *)
Example gaps_notes :
  (clean_dataframe gaps_frame).2
  = ["Removed 1 duplicate records"; "Removed 3 records with missing values"]
  ∧ len (dropna gaps_frame) - len (drop_duplicates (dropna gaps_frame)) = 0.
Proof. split; run. Qed.

(** what the uploads of the sample files answer *)
Definition answer (processed failed : Z) (notes : list string) : UploadResult :=
  {| message := "File processed successfully";
     res_records_processed := processed;
     res_records_failed := failed;
     res_errors := notes;
     res_processing_time := 0 |}.

Lemma upload_counts_add_up_witness :
  res_records_processed
    (answer 3 2 ["Removed 1 duplicate records";
                 "Removed 3 records with missing values"])
  + res_records_failed
      (answer 3 2 ["Removed 1 duplicate records";
                   "Removed 3 records with missing values"])
  = len gaps_frame
  ∧ ∃ entry,
      processing_logs (upload_file (upload "orders.csv" gaps_csv) empty_db).1
        = processing_logs empty_db ++ [entry]
      ∧ status entry = "completed"
      ∧ records_processed entry = 3
      ∧ records_failed entry = 2
      ∧ records_processed entry + records_failed entry = len gaps_frame.
Proof.
  apply (upload_counts_add_up (upload "orders.csv" gaps_csv) empty_db _
           (answer 3 2 ["Removed 1 duplicate records";
                        "Removed 3 records with missing values"])
           gaps_csv gaps_frame);
    run.
Defined.

(** the two records stored from [orders_csv] carry 2 * 5 and 3 * 7 *)
Example orders_totals :
  (λ rec : gmap string cell, rec !! "total_price")
    <$> ecommerce_data (upload_file (upload "orders.csv" orders_csv) empty_db).1
  = [Some (Num 10); Some (Num 21)].
Proof. run. Qed.

Lemma parse_failure_is_logged_witness :
  ∃ entry,
    upload_file broken_upload empty_db =
      ({| ecommerce_data := ecommerce_data empty_db;
          processing_logs := processing_logs empty_db ++ [entry] |},
       HTTPException 500
         ("Error processing file: "
          +:+ "'utf-8' codec can't decode byte 0xff: invalid start byte"))
    ∧ status entry = "failed"
    ∧ errors entry = ["'utf-8' codec can't decode byte 0xff: invalid start byte"]
    ∧ log_filename entry = filename broken_upload.
Proof.
  apply (parse_failure_is_logged broken_upload empty_db).
  - by exists "orders".
  - left. run.
Defined.

Lemma analytics_lists_bounded_sorted_witness :
  ∃ calls stats,
    get_analytics_overview orders_db = (calls, Ok (Overview stats))
    ∧ (length (top_products stats) ≤ 5)%nat
    ∧ StronglySorted (flip sum_le) (pe_total_revenue <$> top_products stats)
    ∧ (length (top_customers stats) ≤ 5)%nat
    ∧ StronglySorted (flip sum_le) (ce_total_spent <$> top_customers stats)
    ∧ (length (daily_revenue stats) ≤ 30)%nat
    ∧ ∃ days : list (option day),
        date <$> daily_revenue stats = fmap (M:=option) date_to_string <$> days
        ∧ Forall (from_option valid_day True) days
        ∧ StronglySorted option_day_le days.
Proof.
  destruct (get_analytics_overview orders_db)
    as [calls [[total msg|stats]|code detail]] eqn:Hrun;
    [exfalso; run_in Hrun; discriminate| |
     exfalso; run_in Hrun; discriminate].
  exists calls, stats. split; [reflexivity|].
  destruct (analytics_lists_bounded_sorted orders_db calls stats Hrun)
    as (Hp & Hps & _ & Hc & Hcs & _ & Hd & Hds).
  by split_and!.
Defined.

(** seven products are in the store and five are listed *)
Example orders_db_top_products :
  match (get_analytics_overview orders_db).2 with
  | Ok (Overview stats) =>
      unique_products stats = 7
      ∧ pe_total_revenue <$> top_products stats
        = [Num 9; Num 7; Num 6; Num 4; Num 3]
      ∧ date <$> daily_revenue stats
        = [Some "2010-12-01"; Some "2010-12-02"; Some "2011-01-05"]
  | _ => False
  end.
Proof.
  run_at (get_analytics_overview orders_db).2. cbv beta iota. split_and!; run.
Qed.
End Runs.

(** * Further properties of the pipeline *)

(** ** More on the cleaner *)

Section KeepFirstMore.
Context {A : Type} `{EqDecision A}.
Implicit Types (l seen : list A) (x : A).

Lemma NoDup_drop_duplicates_from seen l : NoDup (drop_duplicates_from seen l).
Proof.
  revert seen. induction l as [|y l IH]; intros seen; simpl; [constructor|].
  case_bool_decide; [apply IH|]. constructor; [|apply IH].
  rewrite elem_of_drop_duplicates_from. intros [_ Hy]. apply Hy. by left.
Qed.

Lemma sublist_drop_duplicates_from seen l :
  drop_duplicates_from seen l `sublist_of` l.
Proof.
  revert seen. induction l as [|y l IH]; intros seen; simpl; [constructor|].
  case_bool_decide; [by apply sublist_cons|by apply sublist_skip].
Qed.

(** Nothing is dropped exactly when the list has no repetition and avoids
    what was already seen. *)
Lemma drop_duplicates_from_length seen l :
  length (drop_duplicates_from seen l) = length l ↔
  NoDup l ∧ ∀ x, x ∈ l → x ∉ seen.
Proof.
  revert seen. induction l as [|y l IH]; intros seen; simpl.
  - split; [intros _; split; [constructor|set_solver]|done].
  - pose proof (length_drop_duplicates_from seen l).
    case_bool_decide as Hy; simpl.
    + split; [lia|]. intros [_ Hall]. destruct (Hall y); [by left|done].
    + split.
      * intros Hlen. apply (inj S), IH in Hlen as [Hnd Hall]. split.
        -- constructor; [|done]. intros Hin. apply (Hall y Hin). by left.
        -- intros x [->|Hx]%elem_of_cons; [done|].
           intros Hs. apply (Hall x Hx). by right.
      * intros [[Hyl Hnd]%NoDup_cons Hall]. f_equal. apply IH. split; [done|].
        intros x Hx [->|Hs]%elem_of_cons; [done|]. apply (Hall x); [by right|done].
Qed.

Lemma drop_duplicates_from_id seen l :
  NoDup l → (∀ x, x ∈ l → x ∉ seen) → drop_duplicates_from seen l = l.
Proof.
  revert seen. induction l as [|y l IH]; intros seen Hnd Hall; simpl; [done|].
  apply NoDup_cons in Hnd as [Hyl Hnd].
  rewrite bool_decide_eq_false_2 by (apply Hall; by left). f_equal.
  apply IH; [done|]. intros x Hx [->|Hs]%elem_of_cons; [done|].
  apply (Hall x); [by right|done].
Qed.
End KeepFirstMore.

Section CleanerMore.
Context `{Scalars}.
Implicit Types (df : DataFrame) (r : list cell).

(** X1. The cleaner keeps the column labels and returns, in their original
    order and each once, exactly the rows of the table that have no missing
    cell. *)
Theorem clean_dataframe_keeps_complete_rows df :
  columns (clean_dataframe df).1 = columns df
  ∧ rows (clean_dataframe df).1 `sublist_of` rows df
  ∧ NoDup (rows (clean_dataframe df).1)
  ∧ ∀ r, r ∈ rows (clean_dataframe df).1 ↔ r ∈ rows df ∧ has_null r = false.
Proof.
  rewrite clean_dataframe_frame. simpl. unfold dropna_rows. split_and!.
  - done.
  - etrans; [apply sublist_filter|apply sublist_drop_duplicates_from].
  - apply NoDup_filter, NoDup_drop_duplicates_from.
  - intros r. rewrite list_elem_of_filter, elem_of_drop_duplicates_from.
    split; [tauto|]. intros [? ?]. split_and!; [done..|]. apply not_elem_of_nil.
Qed.

(** X2. Cleaning is idempotent: a cleaned table passes through the cleaner
    unchanged and draws no note. *)
Theorem clean_dataframe_idempotent df :
  clean_dataframe (clean_dataframe df).1 = ((clean_dataframe df).1, []).
Proof.
  pose proof (clean_dataframe_no_null df) as Hclean.
  assert (Hnd : NoDup (rows (clean_dataframe df).1)).
  { rewrite clean_dataframe_frame. simpl.
    apply NoDup_filter, NoDup_drop_duplicates_from. }
  generalize dependent (clean_dataframe df).1. intros df' Hclean Hnd.
  assert (Hdd : drop_duplicates_from [] (rows df') = rows df').
  { apply drop_duplicates_from_id; [done|]. intros x _. apply not_elem_of_nil. }
  assert (Hna : dropna_rows (rows df') = rows df').
  { unfold dropna_rows. clear -Hclean.
    induction Hclean as [|r l Hr _ IH]; [done|].
    rewrite filter_cons_True by done. by rewrite IH. }
  apply injective_projections.
  - rewrite clean_dataframe_frame. unfold dropna, drop_duplicates. simpl.
    rewrite Hdd, Hna. by destruct df'.
  - rewrite clean_dataframe_errors. unfold duplicate_note, missing_note, len.
    simpl. rewrite Hdd, Z.sub_diag.
    rewrite bool_decide_eq_false_2 by lia.
    rewrite bool_decide_eq_false_2; [done|].
    rewrite Exists_exists. intros (r & Hr & Hnull).
    rewrite Forall_forall in Hclean. specialize (Hclean r Hr). congruence.
Qed.

Lemma duplicate_note_inj (n m : Z) :
  "Removed " +:+ pretty n +:+ " duplicate records"
  = "Removed " +:+ pretty m +:+ " duplicate records" → n = m.
Proof.
  intros Heq. apply (inj (String.app "Removed ")) in Heq.
  apply string_app_inj_2 in Heq as [Heq _]; [|done].
  by apply (inj pretty) in Heq.
Qed.

(** X3. The cleaner notes duplicates exactly when some row of the table is
    repeated, and the number in the note is the number of rows minus the
    number of distinct rows. *)
Theorem duplicate_note_counts_repeats df :
  (¬ NoDup (rows df) ↔
     ∃ n : Z, "Removed " +:+ pretty n +:+ " duplicate records"
              ∈ (clean_dataframe df).2)
  ∧ (∀ n : Z, "Removed " +:+ pretty n +:+ " duplicate records"
              ∈ (clean_dataframe df).2 →
       n > 0 ∧
       n = Z.of_nat (length (rows df))
           - Z.of_nat (length (drop_duplicates_from [] (rows df)))).
Proof.
  rewrite clean_dataframe_errors.
  pose proof (length_drop_duplicates_from [] (rows df)) as Hle.
  pose proof (drop_duplicates_from_length [] (rows df)) as Hiff.
  assert (Hin : ∀ n : Z,
    "Removed " +:+ pretty n +:+ " duplicate records"
      ∈ duplicate_note df ++ missing_note df →
    n > 0 ∧ n = Z.of_nat (length (rows df))
                - Z.of_nat (length (drop_duplicates_from [] (rows df)))).
  { intros n [Hd|Hm]%elem_of_app.
    - unfold duplicate_note, len in Hd. simpl in Hd.
      case_bool_decide; [|by apply elem_of_nil in Hd].
      apply list_elem_of_singleton, duplicate_note_inj in Hd. lia.
    - unfold missing_note in Hm. case_bool_decide; [|by apply elem_of_nil in Hm].
      apply list_elem_of_singleton in Hm. by apply notes_distinct in Hm. }
  split; [split|exact Hin].
  - intros Hdup.
    exists (len df - len (drop_duplicates df)). apply elem_of_app. left.
    unfold duplicate_note. rewrite bool_decide_eq_true_2.
    + by apply list_elem_of_singleton.
    + unfold len. simpl.
      destruct (decide (length (drop_duplicates_from [] (rows df))
                        = length (rows df))) as [Heq|Hne]; [|lia].
      apply Hiff in Heq as [Hnd _]. done.
  - intros [n [Hpos ->]%Hin] Hnd.
    assert (length (drop_duplicates_from [] (rows df)) = length (rows df)); [|lia].
    apply Hiff. split; [done|]. intros x _. apply not_elem_of_nil.
Qed.
End CleanerMore.

(** ** Column labels *)

Lemma lower_ascii_idemp (a : ascii) : lower_ascii (lower_ascii a) = lower_ascii a.
Proof. destruct a as [[] [] [] [] [] [] [] []]; reflexivity. Qed.

Lemma lower_ascii_space (a : ascii) :
  Ascii.eqb (lower_ascii a) " " = Ascii.eqb a " ".
Proof. destruct a as [[] [] [] [] [] [] [] []]; reflexivity. Qed.

Lemma lower_ascii_underscore (a : ascii) :
  Ascii.eqb (lower_ascii a) "_" = Ascii.eqb a "_".
Proof. destruct a as [[] [] [] [] [] [] [] []]; reflexivity. Qed.

Lemma lower_letters_idemp (s : string) :
  lower_letters (lower_letters s) = lower_letters s.
Proof.
  induction s as [|a s IH]; simpl; [done|]. by rewrite lower_ascii_idemp, IH.
Qed.

Lemma lower_letters_app (a b : string) :
  lower_letters (a +:+ b) = lower_letters a +:+ lower_letters b.
Proof.
  induction a as [|x a IH]; [done|].
  rewrite string_app_cons. simpl. rewrite IH. by rewrite string_app_cons.
Qed.

Lemma remove_char_app (c : ascii) (a b : string) :
  remove_char c (a +:+ b) = remove_char c a +:+ remove_char c b.
Proof.
  induction a as [|x a IH]; [done|].
  rewrite string_app_cons. simpl. destruct (Ascii.eqb x c); [done|].
  by rewrite string_app_cons, IH.
Qed.

Lemma remove_char_idemp (c : ascii) (s : string) :
  remove_char c (remove_char c s) = remove_char c s.
Proof.
  induction s as [|a s IH]; simpl; [done|].
  destruct (Ascii.eqb a c) eqn:Hac; simpl; [done|]. by rewrite Hac, IH.
Qed.

Lemma remove_char_comm (c d : ascii) (s : string) :
  remove_char c (remove_char d s) = remove_char d (remove_char c s).
Proof.
  induction s as [|a s IH]; simpl; [done|].
  destruct (Ascii.eqb a d) eqn:Had, (Ascii.eqb a c) eqn:Hac; simpl;
    rewrite ?Had, ?Hac, ?IH; done.
Qed.

Lemma lower_letters_remove_space (s : string) :
  lower_letters (remove_char " " s) = remove_char " " (lower_letters s).
Proof.
  induction s as [|a s IH]; simpl; [done|]. rewrite lower_ascii_space.
  destruct (Ascii.eqb a " "); simpl; by rewrite IH.
Qed.

Lemma lower_letters_remove_underscore (s : string) :
  lower_letters (remove_char "_" s) = remove_char "_" (lower_letters s).
Proof.
  induction s as [|a s IH]; simpl; [done|]. rewrite lower_ascii_underscore.
  destruct (Ascii.eqb a "_"); simpl; by rewrite IH.
Qed.

Lemma lower_ascii_is_ascii (a : ascii) :
  bool_decide (nat_of_ascii (lower_ascii a) < 128)%nat
  = bool_decide (nat_of_ascii a < 128)%nat.
Proof. destruct a as [[] [] [] [] [] [] [] []]; reflexivity. Qed.

Lemma is_ascii_lower_letters (s : string) :
  is_ascii (lower_letters s) = is_ascii s.
Proof.
  induction s as [|a s IH]; simpl; [done|]. by rewrite lower_ascii_is_ascii, IH.
Qed.

Lemma is_ascii_remove_char (c : ascii) (s : string) :
  is_ascii s = true → is_ascii (remove_char c s) = true.
Proof.
  induction s as [|a s IH]; simpl; [done|].
  intros [Ha Hs]%andb_true_iff. destruct (Ascii.eqb a c); simpl; [by apply IH|].
  by rewrite Ha, IH.
Qed.

Lemma is_ascii_app (a b : string) : is_ascii (a +:+ b) = is_ascii a && is_ascii b.
Proof.
  induction a as [|x a IH]; [done|].
  rewrite string_app_cons. simpl. by rewrite IH, andb_assoc.
Qed.

Section Labels.
Context `{Library}.

(** On ASCII text [lower] shifts the letters and stays within ASCII. *)
Lemma lower_is_ascii (s : string) :
  is_ascii s = true → lower s = lower_letters s ∧ is_ascii (lower s) = true.
Proof.
  intros Hs. unfold lower. rewrite Hs. split; [done|].
  by rewrite is_ascii_lower_letters.
Qed.

Lemma normalize_column_is_ascii (c : string) :
  is_ascii c = true →
  normalize_column c = remove_char "_" (remove_char " " (lower_letters c))
  ∧ is_ascii (normalize_column c) = true.
Proof.
  intros Hc. unfold normalize_column.
  destruct (lower_is_ascii c Hc) as [-> Hl]. split; [done|].
  apply is_ascii_remove_char, is_ascii_remove_char.
  by rewrite is_ascii_lower_letters.
Qed.

Lemma normalize_column_idemp (c : string) :
  is_ascii c = true → normalize_column (normalize_column c) = normalize_column c.
Proof.
  intros Hc. destruct (normalize_column_is_ascii c Hc) as [Hn Hn'].
  destruct (normalize_column_is_ascii _ Hn') as [-> _]. rewrite Hn.
  rewrite lower_letters_remove_underscore, lower_letters_remove_space,
    lower_letters_idemp.
  by rewrite (remove_char_comm " " "_"), !remove_char_idemp.
Qed.

(** X4. On headers written in ASCII, the matching of column labels ignores
    letter case, spaces and underscores, and the labels the schema stage
    assigns are stable under it: normalising twice is normalising once,
    and a label the stage has assigned is assigned to itself. *)
Theorem column_matching_is_insensitive (a b : string) :
  is_ascii a = true → is_ascii b = true →
  normalize_column (lower a) = normalize_column a
  ∧ normalize_column (a +:+ String " " b) = normalize_column (a +:+ b)
  ∧ normalize_column (a +:+ String "_" b) = normalize_column (a +:+ b)
  ∧ normalize_column (normalize_column a) = normalize_column a
  ∧ rename_column (normalize_column (rename_column (normalize_column a)))
    = rename_column (normalize_column a).
Proof.
  intros Ha Hb.
  assert (Hab : is_ascii (a +:+ b) = true) by (by rewrite is_ascii_app, Ha, Hb).
  assert (Hsep : ∀ c : ascii, bool_decide (nat_of_ascii c < 128)%nat = true →
            is_ascii (a +:+ String c b) = true).
  { intros c Hc. rewrite is_ascii_app, Ha. simpl. by rewrite Hc, Hb. }
  split_and!.
  - destruct (lower_is_ascii a Ha) as [Hl Hl'].
    destruct (normalize_column_is_ascii _ Hl') as [-> _].
    destruct (normalize_column_is_ascii _ Ha) as [-> _].
    by rewrite Hl, lower_letters_idemp.
  - destruct (normalize_column_is_ascii _ (Hsep " "%char eq_refl)) as [-> _].
    destruct (normalize_column_is_ascii _ Hab) as [-> _].
    rewrite !lower_letters_app, !(remove_char_app " "), !(remove_char_app "_").
    reflexivity.
  - destruct (normalize_column_is_ascii _ (Hsep "_"%char eq_refl)) as [-> _].
    destruct (normalize_column_is_ascii _ Hab) as [-> _].
    rewrite !lower_letters_app, !(remove_char_app " "), !(remove_char_app "_").
    reflexivity.
  - by apply normalize_column_idemp.
  - unfold rename_column at 2 3.
    destruct (column_mappings !! normalize_column a) as [v|] eqn:Hv; simpl.
    + apply elem_of_list_to_map_2 in Hv.
      assert (Forall (λ kv : string * string,
                rename_column (normalize_column kv.2) = kv.2)
                column_mappings_items) as Hall
        by (repeat constructor; vm_compute; reflexivity).
      rewrite Forall_forall in Hall. exact (Hall _ Hv).
    + rewrite normalize_column_idemp by done. unfold rename_column. by rewrite Hv.
Qed.

End Labels.

(** ** More on the schema stage *)

Section SchemaMore.
Context `{Library}.
Implicit Types (df : DataFrame) (r : list cell) (name : string).

(** An assignment to [name] leaves every column under another label as it
    was. *)
Lemma setitem_column_other name values df j k :
  rectangular df → columns df !! j = Some k → k ≠ name →
  columns (setitem name values df).1 !! j = Some k
  ∧ column_at j (setitem name values df).1 = column_at j df.
Proof.
  intros Hrect Hj Hne. pose proof (lookup_lt_Some _ _ _ Hj) as Hlt.
  unfold setitem. case_bool_decide; simpl; split.
  - done.
  - unfold column_at. simpl. apply list_eq. intros i.
    rewrite !list_lookup_fmap, list_lookup_imap.
    destruct (rows df !! i) as [r|]; [|done]. simpl. f_equal.
    rewrite list_lookup_imap. destruct (r !! j); [|done]. simpl.
    rewrite bool_decide_eq_false_2 by congruence. done.
  - by apply lookup_app_l_Some.
  - unfold column_at. simpl. apply list_eq. intros i.
    rewrite !list_lookup_fmap, list_lookup_imap.
    destruct (rows df !! i) as [r|] eqn:Hri; [|done]. simpl. f_equal.
    pose proof (proj1 (Forall_lookup _ _) Hrect i r Hri) as Hlen.
    simpl in Hlen. rewrite lookup_app_l by lia. done.
Qed.

(** X5. The schema stage passes the rest of the table through: it returns
    as many rows as it was given, at most one diagnostic, and every column
    whose mapped label is not [quantity], [unit_price], [total_price] or
    [order_date] keeps its position, its mapped label and its cells. *)
Theorem standardize_schema_passes_columns_through df :
  rectangular df →
  length (rows (standardize_schema df).1) = length (rows df)
  ∧ (length (standardize_schema df).2 ≤ 1)%nat
  ∧ ∀ j k, columns (renamed df) !! j = Some k → k ∉ coerced →
      columns (standardize_schema df).1 !! j = Some k
      ∧ column_at j (standardize_schema df).1 = column_at j df.
Proof.
  intros Hrect.
  assert (Hrect' : rectangular (renamed df))
    by (unfold rectangular, renamed; simpl; by rewrite !length_fmap).
  destruct (decide (missing_columns df = [])) as [Hmiss|Hmiss];
    [|rewrite (standardize_schema_missing df Hmiss); simpl;
      split_and!; [done|lia|done]].
  rewrite (standardize_schema_present df Hmiss).
  pose proof (convert_types_row_count (renamed df)) as Hcount.
  assert (∀ j k, columns (renamed df) !! j = Some k → k ∉ coerced →
            columns (convert_types (renamed df)).1 !! j = Some k
            ∧ column_at j (convert_types (renamed df)).1 = column_at j df)
    as Hcols.
  { intros j k Hj Hk.
    assert (k ≠ "quantity" ∧ k ≠ "unit_price" ∧ k ≠ "total_price"
            ∧ k ≠ "order_date") as (? & ? & ? & ?)
      by (unfold coerced in Hk; rewrite !not_elem_of_cons in Hk; tauto).
    pose proof (convert_types_invariant
      (λ df', rectangular df' ∧ columns df' !! j = Some k
              ∧ column_at j df' = column_at j df)) as Hinv.
    unfold triple in Hinv.
    refine (_ (Hinv _ _ (renamed df) _)).
    - destruct (convert_types (renamed df)) as [df' [[]|e]]; simpl; tauto.
    - intros name values d Hname (Hr & Hl & Hc).
      assert (k ≠ name) as Hne by (intros ->; set_solver).
      destruct (setitem_column_other name values d j k Hr Hl Hne) as [Hl' Hc'].
      split; [by apply setitem_rectangular|]. split; [done|congruence].
    - intros values d (Hr & Hl & Hc) _.
      destruct (setitem_column_other "total_price" values d j k Hr Hl) as [Hl' Hc'];
        [done|].
      split; [by apply setitem_rectangular|]. split; [done|congruence].
    - done. }
  destruct (convert_types (renamed df)) as [df' [[]|e]]; simpl in *;
    (split_and!; [done|lia|done]).
Qed.

(** a number or a missing value, not text and not a timestamp *)
Definition is_number (c : cell) : Prop :=
  match c with Num _ | Null => True | NaT | Str _ | Date _ => False end.

(** every cell under [name] is a number or missing *)
Definition numeric_under name df : Prop :=
  ∀ r j c, r ∈ rows df → columns df !! j = Some name → r !! j = Some c →
    is_number c.

Lemma to_numeric_cell_is_number (c : cell) : is_number (to_numeric_cell c).
Proof. destruct c as [| |x|s|d]; simpl; [done..| |done]. by destruct (to_numeric_str s). Qed.

Lemma mul_cell_is_number (a b : cell) : is_number (mul_cell a b).
Proof. by destruct a, b. Qed.

Lemma setitem_numeric_new name values df :
  rectangular df → Forall is_number values →
  numeric_under name (setitem name values df).1.
Proof.
  intros Hrect Hvalues r' j c Hr' Hj Hc.
  assert (Hvalue : ∀ i, is_number (default Null (values !! i))).
  { intros i. destruct (values !! i) as [v|] eqn:Hv; simpl; [|done].
    by eapply Forall_lookup_1. }
  unfold setitem in *. case_bool_decide as Hin; simpl in *;
    apply elem_of_lookup_imap in Hr' as (i & r & -> & Hr).
  - rewrite list_lookup_imap in Hc. destruct (r !! j); [|done]. simpl in Hc.
    rewrite bool_decide_eq_true_2 in Hc by done. injection Hc as <-. apply Hvalue.
  - pose proof (proj1 (Forall_lookup _ _) Hrect i r Hr) as Hlen. simpl in Hlen.
    apply lookup_snoc_Some in Hj as [[_ Hj]|[Hj _]];
      [by apply list_elem_of_lookup_2 in Hj|].
    rewrite Hj, <- Hlen, list_lookup_middle in Hc by done.
    injection Hc as <-. apply Hvalue.
Qed.

Lemma setitem_numeric_other name other values df :
  other ≠ name → rectangular df → numeric_under other df →
  numeric_under other (setitem name values df).1.
Proof.
  intros Hne Hrect Hnum r' j c Hr' Hj Hc.
  apply elem_of_setitem_rows in Hr' as (r & v & Hr & Hr').
  rewrite setitem_columns in Hj.
  pose proof (proj1 (Forall_forall _ _) Hrect r Hr) as Hlen. simpl in Hlen.
  case_bool_decide; subst r'.
  - rewrite list_lookup_imap in Hc. destruct (r !! j) as [c'|] eqn:Hc'; [|done].
    simpl in Hc. rewrite bool_decide_eq_false_2 in Hc by congruence.
    injection Hc as <-. by eapply Hnum.
  - apply lookup_snoc_Some in Hj as [[Hlt Hj]|[_ ?]]; [|congruence].
    rewrite lookup_app_l in Hc by lia. by eapply Hnum.
Qed.

(** When the [try] block returns, the three price columns hold numbers. *)
Lemma convert_types_numeric :
  triple (λ df, rectangular df ∧ "total_price" ∉ columns df) convert_types
    (λ _ df, numeric_under "quantity" df ∧ numeric_under "unit_price" df
             ∧ numeric_under "total_price" df)
    (λ _, True).
Proof.
  unfold convert_types.
  eapply triple_bind;
    [by apply (triple_getitem _ _ (λ df, rectangular df ∧ "total_price" ∉ columns df))|].
  intros q. simpl.
  apply (triple_bind _ _ _
    (λ _ df, (rectangular df ∧ "total_price" ∉ columns df)
             ∧ numeric_under "quantity" df)).
  { apply triple_setitem. intros df [[Hr Ha] _]. split_and!.
    - by apply setitem_rectangular.
    - by apply setitem_keeps_absent.
    - apply setitem_numeric_new; [done|].
      apply Forall_fmap, Forall_forall. intros c _. apply to_numeric_cell_is_number. }
  intros _.
  eapply triple_bind; [by apply triple_getitem|]. intros p. simpl.
  apply (triple_bind _ _ _
    (λ _ df, (rectangular df ∧ "total_price" ∉ columns df)
             ∧ numeric_under "quantity" df ∧ numeric_under "unit_price" df)).
  { apply triple_setitem. intros df [[[Hr Ha] Hq] _]. split_and!.
    - by apply setitem_rectangular.
    - by apply setitem_keeps_absent.
    - by apply setitem_numeric_other.
    - apply setitem_numeric_new; [done|].
      apply Forall_fmap, Forall_forall. intros c _. apply to_numeric_cell_is_number. }
  intros _.
  apply (triple_bind _ _ _
    (λ _ df, rectangular df ∧ numeric_under "quantity" df
             ∧ numeric_under "unit_price" df ∧ numeric_under "total_price" df)).
  { apply triple_when.
    - eapply triple_bind; [by apply triple_getitem|]. intros q'. simpl.
      eapply triple_bind; [by apply triple_getitem|]. intros p'. simpl.
      apply triple_setitem.
      intros df [[[[[Hr Ha] [Hq Hp]] _] _] _]. split_and!.
      + by apply setitem_rectangular.
      + by apply setitem_numeric_other.
      + by apply setitem_numeric_other.
      + apply setitem_numeric_new; [done|].
        apply Forall_lookup. intros i c Hc.
        apply lookup_zip_with_Some in Hc as (a & b & -> & _ & _).
        apply mul_cell_is_number.
    - intros df [[_ Ha] _] Htest.
      apply bool_decide_eq_false in Htest. by destruct Htest. }
  intros _.
  apply triple_when; [|tauto].
  eapply triple_bind; [by apply triple_getitem|]. intros d. simpl.
  apply triple_setitem. intros df [[(Hr & Hq & Hp & Ht) _] _]. split_and!.
  - by apply setitem_numeric_other.
  - by apply setitem_numeric_other.
  - by apply setitem_numeric_other.
Qed.

(** X6. In the records of a completed upload whose schema stage reported
    nothing, [quantity], [unit_price] and [total_price] are present and
    each is a number or missing: text never reaches the store under these
    keys. *)
Theorem stored_prices_are_numbers file db db' res text df :
  decode_utf8 (content file) = Returned text →
  read_csv text = Returned df →
  upload_file file db = (db', Ok res) →
  (standardize_schema (clean_dataframe df).1).2 = [] →
  ∃ records,
    ecommerce_data db' = ecommerce_data db ++ records
    ∧ ∀ rec k, rec ∈ records → k ∈ ["quantity"; "unit_price"; "total_price"] →
        ∃ c, rec !! k = Some c ∧ is_number c.
Proof.
  intros Hdec Hread Hup Hsilent.
  destruct (upload_file_completed _ _ _ _ _ _ Hdec Hread Hup)
    as (Hdata & _ & _ & [(Hrect & _ & _) _] & Hhas).
  specialize (Hhas Hsilent).
  eexists. split; [exact Hdata|].
  assert (Hnum : ∀ k, k ∈ ["quantity"; "unit_price"; "total_price"] →
            numeric_under k (standardize_schema (clean_dataframe df).1).1).
  { assert (Hrect0 : rectangular (clean_dataframe df).1)
      by (apply clean_dataframe_rectangular; by eapply read_csv_rectangular).
    revert Hsilent.
    destruct (decide (missing_columns (clean_dataframe df).1 = [])) as [Hmiss|Hmiss];
      [|by rewrite (standardize_schema_missing _ Hmiss)].
    rewrite (standardize_schema_present _ Hmiss).
    pose proof (convert_types_numeric (renamed (clean_dataframe df).1)) as Htriple.
    destruct (convert_types (renamed (clean_dataframe df).1)) as [df' [[]|e]];
      simpl; [|done].
    intros _ k Hk. destruct Htriple as (Hq & Hp & Ht).
    { split; [|apply total_price_not_normalized].
      unfold rectangular, renamed. simpl. by rewrite !length_fmap. }
    rewrite !elem_of_cons in Hk. destruct Hk as [->|[->|[->|Hk]]]; try done.
    by apply elem_of_nil in Hk. }
  intros rec k (i & r & Hr & ->)%elem_of_stored_records Hk.
  pose proof (proj1 (Forall_forall _ _) Hrect r Hr) as Hlen. simpl in Hlen.
  assert (k ∈ columns (standardize_schema (clean_dataframe df).1).1) as Hcol.
  { destruct Hhas as (? & ? & ?).
    rewrite !elem_of_cons in Hk. destruct Hk as [->|[->|[->|Hk]]]; try done.
    by apply elem_of_nil in Hk. }
  destruct (to_dict_lookup_is_Some _ r k Hlen Hcol) as [c Hc].
  exists c. split.
  - rewrite add_metadata_lookup_other; [done|].
    rewrite !elem_of_cons in Hk.
    destruct Hk as [->|[->|[->|Hk]]]; [other_key..|by apply elem_of_nil in Hk].
  - destruct (to_dict_lookup_Some _ _ _ _ Hc) as (j & Hj & Hrj).
    by eapply (Hnum k Hk).
Qed.
End SchemaMore.

(** ** Columns read back, rows as records *)

Section FramesAndRecords.
Context `{Library}.
Implicit Types (df : DataFrame) (r : list cell) (name : string).

Lemma positions_absent_snoc name (cols : list string) :
  name ∉ cols → positions name (cols ++ [name]) = [length cols].
Proof.
  intros Habs. unfold positions. rewrite length_app. simpl.
  rewrite Nat.add_1_r, seq_S, filter_app. simpl.
  rewrite filter_cons_True by (by apply list_lookup_middle).
  rewrite filter_nil.
  replace (filter (λ j, (cols ++ [name]) !! j = Some name) (seq 0 (length cols)))
    with (@nil nat); [done|].
  symmetry. apply elem_of_nil_inv. intros j [Hj Hin]%list_elem_of_filter.
  apply elem_of_seq in Hin. rewrite lookup_app_l in Hj by lia.
  by apply list_elem_of_lookup_2 in Hj.
Qed.

(** X7. Assigning a Series to a column and reading the column back gives
    the Series, whether the label was new or carried by one column; the
    table stays rectangular and the columns under other labels keep their
    cells. *)
Theorem getitem_after_setitem name what values df :
  rectangular df →
  length values = length (rows df) →
  (length (positions name (columns df)) ≤ 1)%nat →
  getitem name what (setitem name values df).1
    = ((setitem name values df).1, Returned values)
  ∧ rectangular (setitem name values df).1
  ∧ ∀ j k, columns df !! j = Some k → k ≠ name →
      column_at j (setitem name values df).1 = column_at j df.
Proof.
  intros Hrect Hlen Hpos. split_and!.
  - unfold getitem, setitem. case_bool_decide as Hin; simpl.
    + apply list_elem_of_lookup in Hin as [j Hj].
      assert (positions name (columns df) = [j]) as ->.
      { pose proof (proj2 (elem_of_positions name (columns df) j) Hj) as Hjp.
        destruct (positions name (columns df)) as [|j0 [|j1 l]];
          [by apply elem_of_nil in Hjp| |simpl in Hpos; lia].
        by apply list_elem_of_singleton in Hjp as ->. }
      f_equal. f_equal. unfold column_at. simpl. apply list_eq. intros i.
      rewrite list_lookup_fmap, list_lookup_imap.
      destruct (rows df !! i) as [r|] eqn:Hr; simpl.
      * pose proof (proj1 (Forall_lookup _ _) Hrect i r Hr) as Hlr. simpl in Hlr.
        rewrite list_lookup_imap.
        destruct (lookup_lt_is_Some_2 r j) as [c Hc];
          [rewrite Hlr; by eapply lookup_lt_Some|].
        rewrite Hc. simpl. rewrite bool_decide_eq_true_2 by done.
        destruct (lookup_lt_is_Some_2 values i) as [v Hv];
          [rewrite Hlen; by eapply lookup_lt_Some|].
        by rewrite Hv.
      * symmetry. apply lookup_ge_None. rewrite Hlen. by apply lookup_ge_None.
    + rewrite positions_absent_snoc by done.
      f_equal. f_equal. unfold column_at. simpl. apply list_eq. intros i.
      rewrite list_lookup_fmap, list_lookup_imap.
      destruct (rows df !! i) as [r|] eqn:Hr; simpl.
      * pose proof (proj1 (Forall_lookup _ _) Hrect i r Hr) as Hlr. simpl in Hlr.
        rewrite <- Hlr, list_lookup_middle by done. simpl.
        destruct (lookup_lt_is_Some_2 values i) as [v Hv];
          [rewrite Hlen; by eapply lookup_lt_Some|].
        by rewrite Hv.
      * symmetry. apply lookup_ge_None. rewrite Hlen. by apply lookup_ge_None.
  - by apply setitem_rectangular.
  - intros j k Hj Hk. by destruct (setitem_column_other name values df j k Hrect Hj Hk).
Qed.

(** With distinct labels, the record of a row holds under each label the
    cell of that column, and nothing else. *)
Lemma to_dict_lookup_NoDup (cols : list string) r j k :
  NoDup cols → length r = length cols → cols !! j = Some k →
  to_dict cols r !! k = r !! j.
Proof.
  intros Hnd Hlen Hj.
  destruct (to_dict_lookup_is_Some cols r k Hlen) as [v Hv];
    [by eapply list_elem_of_lookup_2|].
  rewrite Hv. destruct (to_dict_lookup_Some _ _ _ _ Hv) as (j' & Hj' & Hr).
  by rewrite (NoDup_lookup _ _ _ _ Hnd Hj Hj').
Qed.


(** what the store holds for an [order_date] value: the ISO text of a
    timestamp, any other value as it is *)
Definition stored_order_date (o : option cell) : option cell :=
  match o with
  | Some (Date d) => Some (Str (isoformat d))
  | other => other
  end.

(** X8. When [store_processed_data] returns, it has appended one record per
    row, in row order, and returns their number; the logs are untouched.
    With distinct column labels, the record of a row carries a fresh [_id],
    the file name and the ingestion time, holds under every other label the
    cell of that column, and its [order_date] is the ISO text of a
    timestamp cell, never the timestamp itself. *)
Theorem store_processed_data_records df source db db' n :
  rectangular df → NoDup (columns df) →
  store_processed_data df source db = (db', Ok n) →
  n = len df ∧ n > 0
  ∧ processing_logs db' = processing_logs db
  ∧ ∃ records,
      ecommerce_data db' = ecommerce_data db ++ records
      ∧ length records = length (rows df)
      ∧ ∀ i r, rows df !! i = Some r →
          ∃ rec, records !! i = Some rec
            ∧ rec !! "_id" = Some (Str (uuid4 (S i)))
            ∧ rec !! "source_file" = Some (Str source)
            ∧ rec !! "processed_at" = Some (Date utcnow)
            ∧ (∀ j k, columns df !! j = Some k →
                 k ∉ ["_id"; "source_file"; "processed_at"; "order_date"] →
                 rec !! k = r !! j)
            ∧ (∀ j, columns df !! j = Some "order_date" →
                 rec !! "order_date" = stored_order_date (r !! j))
            ∧ (∀ d, rec !! "order_date" ≠ Some (Date d)).
Proof.
  intros Hrect Hnd. rewrite store_processed_data_spec. cbv zeta.
  case_bool_decide as Hrows; [done|].
  destruct (forallb encodable _); [|done]. intros [= <- <-]. simpl.
  split; [done|]. split.
  { unfold len. destruct (rows df); [done|simpl; lia]. }
  split; [done|]. eexists. split; [done|]. split.
  { unfold to_dict_records. by rewrite length_imap, length_fmap. }
  intros i r Hr.
  pose proof (proj1 (Forall_lookup _ _) Hrect i r Hr) as Hlen. simpl in Hlen.
  exists (add_metadata source i (to_dict (columns df) r)). split.
  { unfold to_dict_records. rewrite list_lookup_imap, list_lookup_fmap, Hr. done. }
  assert (Hdate : ∀ o : option cell,
    to_dict (columns df) r !! "order_date" = o →
    add_metadata source i (to_dict (columns df) r) !! "order_date" =
      stored_order_date o).
  { intros o Ho. unfold add_metadata, stored_order_date.
    rewrite !lookup_insert_ne by done. rewrite Ho.
    destruct o as [[| | | |d]|]; rewrite ?lookup_insert_eq, ?lookup_insert_ne by done;
      done. }
  assert (Hmeta : ∀ k v,
    k ∈ ["_id"; "source_file"; "processed_at"] →
    (<["processed_at" := Date utcnow]>
       (<["source_file" := Str source]>
          (<["_id" := Str (uuid4 (S i))]> (to_dict (columns df) r)))) !! k = Some v →
    add_metadata source i (to_dict (columns df) r) !! k = Some v).
  { intros k v Hk Hv. unfold add_metadata.
    assert (k ≠ "order_date") by (intros ->; set_solver).
    repeat case_match; by rewrite ?lookup_insert_ne by done. }
  split_and!.
  - apply Hmeta; [set_solver|]. by rewrite !lookup_insert_ne, lookup_insert_eq by done.
  - apply Hmeta; [set_solver|]. by rewrite lookup_insert_ne, lookup_insert_eq by done.
  - apply Hmeta; [set_solver|]. by rewrite lookup_insert_eq.
  - intros j k Hj Hk. rewrite add_metadata_lookup_other by done.
    by apply to_dict_lookup_NoDup.
  - intros j Hj. apply Hdate. by apply to_dict_lookup_NoDup.
  - intros d. rewrite (Hdate _ eq_refl). unfold stored_order_date.
    by destruct (to_dict (columns df) r !! "order_date") as [[| | | |d']|].
Qed.
End FramesAndRecords.

(** ** The three outcomes of an upload *)

Section UploadMore.
Context `{Library}.
Implicit Types (file : UploadFile) (db : Db) (df : DataFrame).


(** X10. The failed count of a completed upload is the number of rows the
    cleaner removed, repeated rows and rows with a missing cell; every other
    row of the file is stored and counted as processed, whatever the schema
    stage reported.  At least one row is processed. *)
Theorem failed_rows_are_cleaner_removals file db db' res text df :
  decode_utf8 (content file) = Returned text →
  read_csv text = Returned df →
  upload_file file db = (db', Ok res) →
  res_records_processed res = len (clean_dataframe df).1
  ∧ res_records_failed res = len df - len (clean_dataframe df).1
  ∧ 1 ≤ res_records_processed res ≤ len df
  ∧ 0 ≤ res_records_failed res
  ∧ Z.of_nat (length (ecommerce_data db'))
    = Z.of_nat (length (ecommerce_data db)) + res_records_processed res.
Proof.
  intros Hdec Hread Hup.
  destruct (endswith (filename file) ".csv") eqn:Hext;
    [|unfold upload_file in Hup; by rewrite Hext in Hup].
  rewrite (upload_file_parsed _ _ _ _ Hext Hdec Hread) in Hup.
  case_bool_decide as Hrows; [done|]. destruct (forallb encodable _); [|done].
  injection Hup as <- <-.
  cbn [res_records_processed res_records_failed ecommerce_data insert_one].
  assert (Hrect : rectangular (clean_dataframe df).1)
    by (apply clean_dataframe_rectangular; by eapply read_csv_rectangular).
  destruct (standardize_schema_post (clean_dataframe df).1 Hrect
              (clean_dataframe_no_null df)) as (_ & _ & Hcount).
  pose proof (len_clean_dataframe df) as Hle.
  assert (len (standardize_schema (clean_dataframe df).1).1
          = len (clean_dataframe df).1) as Hlen
    by (unfold len; by rewrite Hcount).
  assert (1 ≤ len (standardize_schema (clean_dataframe df).1).1).
  { unfold len. destruct (rows (standardize_schema (clean_dataframe df).1).1);
      [done|simpl; lia]. }
  rewrite length_app, length_imap. unfold to_dict_records. rewrite length_fmap.
  rewrite <- !(clean_dataframe_frame df). unfold len in *. lia.
Qed.

(** X11. When the cleaner leaves no row (a file with a header only, or
    whose every row has a missing cell), the driver refuses the empty list
    of documents: the upload answers with status 500, stores nothing, and
    logs a failed entry. *)
Theorem upload_without_rows_fails file db text df :
  (∃ p, filename file = p +:+ ".csv") →
  decode_utf8 (content file) = Returned text →
  read_csv text = Returned df →
  rows (clean_dataframe df).1 = [] →
  ∃ entry detail,
    upload_file file db =
      ({| ecommerce_data := ecommerce_data db;
          processing_logs := processing_logs db ++ [entry] |},
       HTTPException 500 ("Error processing file: " +:+ detail))
    ∧ detail = str_http_exception 500
                 ("Error storing data: " +:+ "documents must be a non-empty list")
    ∧ status entry = "failed" ∧ errors entry = [detail].
Proof.
  intros Hsuf%endswith_spec Hdec Hread Hempty.
  rewrite (upload_file_parsed _ _ _ _ Hsuf Hdec Hread).
  destruct (standardize_schema_post (clean_dataframe df).1) as (_ & _ & Hcount).
  { apply clean_dataframe_rectangular. by eapply read_csv_rectangular. }
  { apply clean_dataframe_no_null. }
  rewrite Hempty in Hcount. simpl in Hcount.
  apply nil_length_inv in Hcount.
  rewrite bool_decide_eq_true_2 by done.
  by eexists _, _.
Qed.
End UploadMore.

(** ** A label carried by two columns *)

Section DuplicatedLabel.
Context `{Library}.
Implicit Types (df : DataFrame).

Lemma required_columns_present df c :
  missing_columns df = [] → c ∈ required_columns → c ∈ columns (renamed df).
Proof.
  intros Hmiss Hc. destruct (decide (c ∈ columns (renamed df))) as [|Hn]; [done|].
  assert (c ∈ missing_columns df) as Hin
    by (unfold missing_columns; by apply list_elem_of_filter).
  rewrite Hmiss in Hin. by apply elem_of_nil in Hin.
Qed.

Lemma positions_nonempty name (cols : list string) :
  name ∈ cols → positions name cols ≠ [].
Proof.
  intros [j Hj]%list_elem_of_lookup Hnil.
  apply elem_of_positions in Hj. rewrite Hnil in Hj. by apply elem_of_nil in Hj.
Qed.

Lemma try_bind_raised {A B} (m : try_block A) (k : A → try_block B) df df' e :
  m df = (df', Raised e) → (m ≫= k) df = (df', Raised e).
Proof. intros Hm. unfold mbind, try_bind. by rewrite Hm. Qed.

Lemma try_bind_returned {A B} (m : try_block A) (k : A → try_block B) df df' a :
  m df = (df', Returned a) → (m ≫= k) df = k a df'.
Proof. intros Hm. unfold mbind, try_bind. by rewrite Hm. Qed.

Lemma getitem_ambiguous name what df :
  (2 ≤ length (positions name (columns df)))%nat →
  getitem name what df = (df, Raised what).
Proof.
  intros Hlen. unfold getitem.
  destruct (positions name (columns df)) as [|j [|j' l]]; simpl in Hlen; [lia..|done].
Qed.

Lemma getitem_unique name what df j :
  positions name (columns df) = [j] →
  getitem name what df = (df, Returned (column_at j df)).
Proof. intros Hpos. unfold getitem. by rewrite Hpos. Qed.

(** X12. When two columns of the file map to [quantity], or two map to
    [unit_price] (say [Qty] beside [Quantity]), the conversion raises inside
    its [try] block: the schema stage reports one diagnostic starting with
    [Error converting data types], derives no [total_price], and returns
    all rows under the mapped labels. *)
Theorem duplicated_price_label_stops_conversion df :
  missing_columns df = [] →
  (2 ≤ length (positions "quantity" (columns (renamed df)))
   ∨ 2 ≤ length (positions "unit_price" (columns (renamed df))))%nat →
  (standardize_schema df).2 = ["Error converting data types: " +:+ not_1d]
  ∧ columns (standardize_schema df).1 = columns (renamed df)
  ∧ "total_price" ∉ columns (standardize_schema df).1
  ∧ length (rows (standardize_schema df).1) = length (rows df).
Proof.
  intros Hmiss Hdup. rewrite (standardize_schema_present df Hmiss).
  pose proof (required_columns_present df "quantity" Hmiss) as Hq.
  pose proof (required_columns_present df "unit_price" Hmiss) as Hp.
  pose proof (total_price_not_normalized (columns df)) as Habs.
  pose proof (convert_types_row_count (renamed df)) as Hcount.
  assert (∃ df', convert_types (renamed df) = (df', Raised not_1d)
                 ∧ columns df' = columns (renamed df)) as (df' & Hrun & Hcols).
  { unfold convert_types.
    destruct (decide (2 ≤ length (positions "quantity" (columns (renamed df)))))%nat
      as [Hq2|Hq1].
    - exists (renamed df). split; [|done].
      apply try_bind_raised. by apply getitem_ambiguous.
    - destruct Hdup as [Hdup|Hdup]; [done|].
      pose proof (positions_nonempty _ _
                    (Hq ltac:(unfold required_columns; set_solver))) as Hqpos.
      destruct (positions "quantity" (columns (renamed df))) as [|jq [|jq' lq]]
        eqn:Hposq; [done| |simpl in Hq1; lia].
      erewrite try_bind_returned by (by apply getitem_unique).
      pose proof (setitem_returns "quantity"
                    (to_numeric_cell <$> column_at jq (renamed df)) (renamed df))
        as Hret.
      pose proof (setitem_columns "quantity"
                    (to_numeric_cell <$> column_at jq (renamed df)) (renamed df))
        as Hcols.
      rewrite bool_decide_eq_true_2 in Hcols
        by (apply Hq; unfold required_columns; set_solver).
      destruct (setitem "quantity" (to_numeric_cell <$> column_at jq (renamed df))
                  (renamed df)) as [df1 [[]|e]] eqn:Hset; [|discriminate].
      simpl in Hcols. exists df1. split; [|done].
      erewrite try_bind_returned by exact Hset.
      apply try_bind_raised. apply getitem_ambiguous. by rewrite Hcols. }
  rewrite Hrun in *. simpl in *. rewrite Hcols. by split_and!.
Qed.
End DuplicatedLabel.

(** ** The log listing *)

Section Logs.
Context `{Scalars} (time_le : relation datetime) `{!RelDecision time_le}.
Notation newest_first := (newest_first time_le).
Notation get_processing_logs := (get_processing_logs time_le).

(** X13. The log listing answers with at most 50 entries, all of them
    stored entries, the later before the earlier; with 50 stored entries or
    fewer it lists every one of them. *)
Theorem get_processing_logs_newest_first
    `{!Transitive time_le} `{!Total time_le} (db : Db) :
  ∃ logs,
    get_processing_logs db = Ok logs
    ∧ (length logs ≤ 50)%nat
    ∧ StronglySorted newest_first logs
    ∧ logs ⊆ processing_logs db
    ∧ ((length (processing_logs db) ≤ 50)%nat → logs ≡ₚ processing_logs db).
Proof.
  eexists. split; [reflexivity|].
  assert (Transitive newest_first)
    by (unfold newest_first; intros a b c Hab Hbc; by etrans).
  assert (Total newest_first)
    by (unfold newest_first; intros a b;
        destruct (total time_le (timestamp a) (timestamp b)); auto).
  destruct (limit_merge_sort newest_first 50 (processing_logs db))
    as (Hlen & Hsub & Hsorted).
  split_and!; [done..|].
  intros Hfew. unfold limit. rewrite take_ge.
  - apply merge_sort_Permutation.
  - by rewrite merge_sort_Permutation.
Qed.
End Logs.

(** ** Handlers composed *)

Section Composed.
Context `{Library}.
Implicit Types (file : UploadFile) (db : Db).

Lemma upload_file_ok_inv file db db' res :
  upload_file file db = (db', Ok res) →
  ∃ records entry,
    records ≠ []
    ∧ ecommerce_data db' = ecommerce_data db ++ records
    ∧ processing_logs db' = processing_logs db ++ [entry]
    ∧ Z.of_nat (length records) = res_records_processed res.
Proof.
  unfold upload_file.
  destruct (endswith (filename file) ".csv"); cbn [negb]; [|done].
  destruct (decode_utf8 (content file)) as [text|e]; [|done].
  destruct (read_csv text) as [df|e]; [|done].
  destruct (clean_dataframe df) as [df1 e1].
  destruct (standardize_schema df1) as [df2 e2].
  rewrite store_processed_data_spec. cbv zeta.
  case_bool_decide as Hrows; [done|]. destruct (forallb encodable _); [|done].
  intros [= <- <-]. eexists _, _. simpl. split_and!; try done.
  - unfold to_dict_records. by destruct (rows df2).
  - unfold len, to_dict_records. by rewrite length_imap, length_fmap.
Qed.

(** X14. After [clear_all_data], a completed upload leaves in the store
    exactly the order lines it reports as processed and exactly one log
    entry; the analytics handler then never answers with the empty state,
    and an overview it returns has [total_records] equal to the processed
    count of the upload. *)
Theorem upload_into_cleared_store file db db' res :
  upload_file file (clear_all_data db).1 = (db', Ok res) →
  Z.of_nat (length (ecommerce_data db')) = res_records_processed res
  ∧ length (processing_logs db') = 1%nat
  ∧ (∀ calls total msg,
       get_analytics_overview db' ≠ (calls, Ok (NoData total msg)))
  ∧ (∀ calls stats,
       get_analytics_overview db' = (calls, Ok (Overview stats)) →
       total_records stats = res_records_processed res).
Proof.
  intros (records & entry & Hne & Hdata & Hlogs & Hlen)%upload_file_ok_inv.
  simpl in Hdata, Hlogs. rewrite Hdata, Hlogs. split_and!; [done..| |].
  - intros calls total msg. unfold get_analytics_overview. rewrite Hdata.
    rewrite bool_decide_eq_false_2 by (destruct records; [done|simpl; lia]).
    destruct (daily_revenue_pipeline records); [|done].
    by destruct (collect _).
  - intros calls stats. unfold get_analytics_overview. rewrite Hdata.
    case_bool_decide; [done|].
    destruct (daily_revenue_pipeline records); [|done].
    destruct (collect _); [|done]. by intros [= <- <-].
Qed.
End Composed.

(** ** Order counts add up *)

Definition Z_total (l : list Z) : Z := foldr Z.add 0 l.

Lemma Z_total_cons (x : Z) (l : list Z) : Z_total (x :: l) = x + Z_total l.
Proof. reflexivity. Qed.

Lemma Z_total_Permutation (l k : list Z) : l ≡ₚ k → Z_total l = Z_total k.
Proof. induction 1; rewrite ?Z_total_cons; lia. Qed.

Lemma Z_total_fmap_ext {A} (f g : A → Z) (l : list A) :
  (∀ x, x ∈ l → f x = g x) → Z_total (f <$> l) = Z_total (g <$> l).
Proof.
  induction l as [|x l IH]; intros Hfg; [done|].
  rewrite !fmap_cons, !Z_total_cons, IH.
  - rewrite Hfg; [done|by left].
  - intros y Hy. apply Hfg. by right.
Qed.

Lemma Z_total_fmap_add {A} (f g : A → Z) (l : list A) :
  Z_total ((λ x, f x + g x) <$> l) = Z_total (f <$> l) + Z_total (g <$> l).
Proof.
  induction l as [|x l IH]; [done|].
  rewrite !fmap_cons, !Z_total_cons, IH. lia.
Qed.

Lemma Z_total_fmap_zero {A} (l : list A) : Z_total ((λ _, 0) <$> l) = 0.
Proof.
  induction l as [|x l IH]; [done|]. by rewrite fmap_cons, Z_total_cons, IH.
Qed.

Lemma Z_total_indicator {A} `{EqDecision A} (x : A) (l : list A) :
  NoDup l → x ∈ l →
  Z_total ((λ k, if decide (x = k) then 1 else 0) <$> l) = 1.
Proof.
  induction 1 as [|y l Hy Hnd IH]; [by intros ?%elem_of_nil|].
  intros Hx. rewrite fmap_cons, Z_total_cons.
  destruct (decide (x = y)) as [->|Hne].
  - rewrite (Z_total_fmap_ext _ (λ _, 0)), Z_total_fmap_zero.
    + done.
    + intros k Hk. by rewrite decide_False by (by intros <-).
  - rewrite IH; [done|set_solver].
Qed.

(** The groups of [$group] share out the items: their sizes add up to the
    number of items. *)
Lemma group_sizes {K A} `{EqDecision K} (key : A → K) (items : list A) :
  Z_total ((λ g : K * list A, Z.of_nat (length g.2)) <$> group key items)
  = Z.of_nat (length items).
Proof.
  unfold group. rewrite <- list_fmap_compose.
  set (ks := drop_duplicates_from [] (key <$> items)).
  assert (Hnd : NoDup ks) by apply NoDup_drop_duplicates_from.
  assert (Hall : ∀ d, d ∈ items → key d ∈ ks).
  { intros d Hd. apply elem_of_drop_duplicates_from.
    split; [by apply list_elem_of_fmap_2|apply not_elem_of_nil]. }
  clearbody ks. induction items as [|d items IH].
  - simpl. apply (Z_total_fmap_zero ks).
  - erewrite (Z_total_fmap_ext _
      (λ k, (if decide (key d = k) then 1 else 0)
            + Z.of_nat (length (filter (λ d', key d' = k) items)))).
    + rewrite Z_total_fmap_add, Z_total_indicator; [|done|apply Hall; by left].
      unfold compose in IH. simpl in IH. rewrite IH; [simpl; lia|].
      intros d' Hd'. apply Hall. by right.
    + intros k _. unfold compose. simpl. rewrite filter_cons.
      destruct (decide (key d = k)); simpl; lia.
Qed.

Section OrderCounts.
Context `{Library}.

Lemma limit_all {A} n (l : list A) :
  (length (limit n l) < n)%nat → limit n l = l.
Proof.
  unfold limit. rewrite length_take. intros Hlt. apply take_ge. lia.
Qed.

(** X15. When a list of the overview is shorter than its limit, nothing was
    cut from it and the order counts of its entries add up to
    [total_records]: every stored order line is counted under exactly one
    day, one customer and one product. *)
Theorem overview_order_counts_add_up (db : Db) calls stats :
  get_analytics_overview db = (calls, Ok (Overview stats)) →
  ((length (daily_revenue stats) < 30)%nat →
     Z_total (orders <$> daily_revenue stats) = total_records stats)
  ∧ ((length (top_customers stats) < 5)%nat →
     Z_total (ce_order_count <$> top_customers stats) = total_records stats)
  ∧ ((length (top_products stats) < 5)%nat →
     Z_total (pe_order_count <$> top_products stats) = total_records stats).
Proof.
  unfold get_analytics_overview. case_bool_decide; [done|].
  destruct (daily_revenue_pipeline (ecommerce_data db)) as [daily|e] eqn:Hdaily;
    [|done].
  destruct (collect (product_entry <$> top_products_pipeline (ecommerce_data db)))
    as [entries|e] eqn:Hentries; [|done].
  intros [= <- <-]. cbn [daily_revenue top_customers top_products total_records].
  split_and!.
  - rewrite length_fmap. intros Hshort. rewrite <- list_fmap_compose.
    revert Hdaily Hshort.
    unfold daily_revenue_pipeline, mbind, raises_bind, mret, raises_ret.
    destruct (collect (day_key <$> ecommerce_data db)) as [keys|e] eqn:Hkeys; [|done].
    cbv zeta. apply collect_Forall2, Forall2_length in Hkeys.
    match goal with |- context [limit 30 (merge_sort by_id_asc ?l)] =>
      set (groups := l); set (sorted := limit 30 (merge_sort by_id_asc groups)) end.
    intros Heq. assert (daily = sorted) as -> by congruence. clear Heq.
    intros Hshort. unfold sorted in *. rewrite (limit_all _ _ Hshort).
    rewrite (Z_total_Permutation _ ((orders ∘ day_entry) <$> groups))
      by (by rewrite merge_sort_Permutation).
    unfold groups. rewrite <- list_fmap_compose.
    rewrite (group_sizes fst (zip keys (ecommerce_data db))).
    rewrite length_zip_with. lia.
  - rewrite length_fmap. intros Hshort. rewrite <- list_fmap_compose.
    revert Hshort. unfold top_customers_pipeline.
    match goal with |- context [limit 5 (merge_sort by_spent_desc ?l)] =>
      set (groups := l) end.
    intros Hshort. rewrite (limit_all _ _ Hshort).
    rewrite (Z_total_Permutation _ ((ce_order_count ∘ customer_entry) <$> groups))
      by (by rewrite merge_sort_Permutation).
    unfold groups. rewrite <- list_fmap_compose.
    apply (group_sizes (λ d : gmap string cell, d !! "customer_id")).
  - apply collect_Forall2 in Hentries.
    rewrite <- (Forall2_length _ _ _ Hentries). intros Hshort.
    assert (pe_order_count <$> entries
            = pg_order_count <$> top_products_pipeline (ecommerce_data db)) as ->.
    { clear -Hentries. induction Hentries as [|g e gs es Hge _ IH]; [done|].
      simpl. f_equal; [|exact IH]. unfold product_entry in Hge.
      destruct (pg_id g) as [[?|] [?|]]; by simplify_eq. }
    revert Hshort. unfold top_products_pipeline.
    match goal with |- context [limit 5 (merge_sort by_revenue_desc ?l)] =>
      set (groups := l) end.
    intros Hshort. rewrite (limit_all _ _ Hshort).
    rewrite (Z_total_Permutation _ (pg_order_count <$> groups))
      by (by rewrite merge_sort_Permutation).
    unfold groups. rewrite <- list_fmap_compose.
    apply (group_sizes
             (λ d : gmap string cell, (d !! "product_id", d !! "product_name"))).
Qed.
End OrderCounts.

(** * More sample runs *)

Section MoreRuns.
Import Sample.

Lemma orders_frame_rectangular : rectangular orders_frame.
Proof. unfold rectangular. simpl. repeat constructor. Qed.

Lemma column_matching_is_insensitive_witness :
  normalize_column (lower "Unit") = normalize_column "Unit"
  ∧ normalize_column ("Unit" +:+ String " " "Price") = normalize_column ("Unit" +:+ "Price")
  ∧ normalize_column ("Unit" +:+ String "_" "Price") = normalize_column ("Unit" +:+ "Price")
  ∧ normalize_column (normalize_column "Unit") = normalize_column "Unit"
  ∧ rename_column (normalize_column (rename_column (normalize_column "Unit")))
    = rename_column (normalize_column "Unit").
Proof. apply (column_matching_is_insensitive "Unit" "Price"); reflexivity. Defined.

Lemma standardize_schema_passes_columns_through_witness :
  length (rows (standardize_schema orders_frame).1) = length (rows orders_frame)
  ∧ (length (standardize_schema orders_frame).2 ≤ 1)%nat
  ∧ ∀ j k, columns (renamed orders_frame) !! j = Some k → k ∉ coerced →
      columns (standardize_schema orders_frame).1 !! j = Some k
      ∧ column_at j (standardize_schema orders_frame).1 = column_at j orders_frame.
Proof.
  apply (standardize_schema_passes_columns_through orders_frame).
  unfold rectangular. simpl. repeat constructor.
Defined.

Lemma stored_prices_are_numbers_witness :
  ∃ records,
    ecommerce_data (upload_file (upload "orders.csv" orders_csv) empty_db).1
      = ecommerce_data empty_db ++ records
    ∧ ∀ rec k, rec ∈ records → k ∈ ["quantity"; "unit_price"; "total_price"] →
        ∃ c, rec !! k = Some c ∧ is_number c.
Proof.
  apply (stored_prices_are_numbers (upload "orders.csv" orders_csv) empty_db _
           (answer 2 1 ["Removed 1 duplicate records"]) orders_csv orders_frame);
    run.
Defined.

(** the products of the three rows of [orders_frame] *)
Definition orders_totals_series : list cell := [Num 10; Num 10; Num 21].

Lemma getitem_after_setitem_witness :
  getitem "total_price" not_1d
    (setitem "total_price" orders_totals_series orders_frame).1
    = ((setitem "total_price" orders_totals_series orders_frame).1,
       Returned orders_totals_series)
  ∧ rectangular (setitem "total_price" orders_totals_series orders_frame).1
  ∧ ∀ j k, columns orders_frame !! j = Some k → k ≠ "total_price" →
      column_at j (setitem "total_price" orders_totals_series orders_frame).1
      = column_at j orders_frame.
Proof.
  apply (getitem_after_setitem "total_price" not_1d orders_totals_series
           orders_frame).
  - unfold rectangular. simpl. repeat constructor.
  - reflexivity.
  - vm_compute. lia.
Defined.

Lemma store_processed_data_records_witness :
  3 = len orders_frame ∧ 3 > 0
  ∧ processing_logs (store_processed_data orders_frame "orders.csv" empty_db).1
    = processing_logs empty_db
  ∧ ∃ records,
      ecommerce_data (store_processed_data orders_frame "orders.csv" empty_db).1
        = ecommerce_data empty_db ++ records
      ∧ length records = length (rows orders_frame)
      ∧ ∀ i r, rows orders_frame !! i = Some r →
          ∃ rec, records !! i = Some rec
            ∧ rec !! "_id" = Some (Str (uuid4 (S i)))
            ∧ rec !! "source_file" = Some (Str "orders.csv")
            ∧ rec !! "processed_at" = Some (Date utcnow)
            ∧ (∀ j k, columns orders_frame !! j = Some k →
                 k ∉ ["_id"; "source_file"; "processed_at"; "order_date"] →
                 rec !! k = r !! j)
            ∧ (∀ j, columns orders_frame !! j = Some "order_date" →
                 rec !! "order_date" = stored_order_date (r !! j))
            ∧ (∀ d, rec !! "order_date" ≠ Some (Date d)).
Proof.
  apply (store_processed_data_records orders_frame "orders.csv" empty_db).
  - unfold rectangular. simpl. repeat constructor.
  - apply (bool_decide_unpack _). vm_compute. exact I.
  - run.
Defined.

Lemma failed_rows_are_cleaner_removals_witness :
  3 = len (clean_dataframe gaps_frame).1
  ∧ 2 = len gaps_frame - len (clean_dataframe gaps_frame).1
  ∧ 1 ≤ 3 ≤ len gaps_frame
  ∧ 0 ≤ 2
  ∧ Z.of_nat (length (ecommerce_data
                        (upload_file (upload "orders.csv" gaps_csv) empty_db).1))
    = Z.of_nat (length (ecommerce_data empty_db)) + 3.
Proof.
  apply (failed_rows_are_cleaner_removals (upload "orders.csv" gaps_csv) empty_db _
           (answer 3 2 ["Removed 1 duplicate records";
                        "Removed 3 records with missing values"])
           gaps_csv gaps_frame);
    run.
Defined.

(** a file with its header and no data row *)
Definition header_only_csv : string :=
  "order_id,product_id,quantity,unit_price" +:+ nl.

Definition header_only_frame : DataFrame :=
  {| columns := ["order_id"; "product_id"; "quantity"; "unit_price"]; rows := [] |}.

Definition header_read_csv (text : string) : raises DataFrame :=
  if bool_decide (text = header_only_csv) then Returned header_only_frame
  else sample_read_csv text.

Lemma header_read_csv_rectangular text df :
  header_read_csv text = Returned df →
  Forall (λ r, length r = length (columns df)) (rows df).
Proof.
  unfold header_read_csv. case_bool_decide.
  - intros [= <-]. constructor.
  - apply sample_read_csv_rectangular.
Qed.

(** the sample library, knowing the header-only file as well *)
Definition header_library : Library := {|
  str_lower := lower_letters;
  to_numeric_str := parse_int;
  to_datetime := sample_to_datetime;
  to_datetime_length := sample_to_datetime_length;
  bson_key := sample_bson_key;
  bson_error := sample_bson_error;
  isoformat := λ d, pretty d;
  decode_utf8 := sample_decode;
  read_csv := header_read_csv;
  read_csv_rectangular := header_read_csv_rectangular;
  uuid4 := λ k, "id-" +:+ pretty k;
  utcnow := 0;
  total_seconds := 0;
  str_http_exception := λ code detail, pretty code +:+ ": " +:+ detail;
  date_from_string := parse_iso_day;
  date_from_string_valid := parse_iso_day_valid;
  agg_min := extreme (λ a b, String.leb a b);
  agg_max := extreme (λ a b, String.leb b a);
|}.

Lemma upload_without_rows_fails_witness :
  ∃ entry detail,
    @upload_file _ header_library (upload "orders.csv" header_only_csv) empty_db =
      ({| ecommerce_data := ecommerce_data empty_db;
          processing_logs := processing_logs empty_db ++ [entry] |},
       HTTPException 500 ("Error processing file: " +:+ detail))
    ∧ detail = @str_http_exception _ header_library 500
                 ("Error storing data: " +:+ "documents must be a non-empty list")
    ∧ status entry = "failed" ∧ errors entry = [detail].
Proof.
  apply (@upload_without_rows_fails _ header_library
           (upload "orders.csv" header_only_csv) empty_db
           header_only_csv header_only_frame).
  - by exists "orders".
  - run.
  - run.
  - run.
Defined.

(** [Qty] and [Quantity] both map to [quantity] *)
Definition two_quantities_frame : DataFrame := {|
  columns := ["Invoice"; "StockCode"; "Qty"; "Quantity"; "Price"];
  rows := [ [Str "A1"; Str "P1"; Num 2; Num 2; Num 5] ];
|}.

Lemma duplicated_price_label_stops_conversion_witness :
  (standardize_schema two_quantities_frame).2
    = ["Error converting data types: " +:+ not_1d]
  ∧ columns (standardize_schema two_quantities_frame).1
    = columns (renamed two_quantities_frame)
  ∧ "total_price" ∉ columns (standardize_schema two_quantities_frame).1
  ∧ length (rows (standardize_schema two_quantities_frame).1)
    = length (rows two_quantities_frame).
Proof.
  apply (duplicated_price_label_stops_conversion two_quantities_frame).
  - run.
  - left. vm_compute. lia.
Defined.

Definition log_at (name : string) (time : Z) : ProcessingLog :=
  {| log_id := name; log_filename := name; status := "completed";
     records_processed := 1; records_failed := 0; errors := [];
     timestamp := time; processing_time := Some 0 |}.

Definition logged_db : Db :=
  {| ecommerce_data := [];
     processing_logs := [log_at "first.csv" 10; log_at "third.csv" 30;
                         log_at "second.csv" 20] |}.

Lemma get_processing_logs_newest_first_witness :
  ∃ logs,
    get_processing_logs Z.le logged_db = Ok logs
    ∧ (length logs ≤ 50)%nat
    ∧ StronglySorted (newest_first Z.le) logs
    ∧ logs ⊆ processing_logs logged_db
    ∧ ((length (processing_logs logged_db) ≤ 50)%nat →
       logs ≡ₚ processing_logs logged_db).
Proof. apply (get_processing_logs_newest_first (H := scalars) Z.le logged_db). Defined.

(** the listing of [logged_db], latest upload first *)
Example logged_db_listing :
  get_processing_logs Z.le logged_db
  = Ok [log_at "third.csv" 30; log_at "second.csv" 20; log_at "first.csv" 10].
Proof. run. Qed.

Lemma upload_into_cleared_store_witness :
  Z.of_nat (length (ecommerce_data
      (upload_file (upload "orders.csv" orders_csv) (clear_all_data orders_db).1).1))
    = 2
  ∧ length (processing_logs
      (upload_file (upload "orders.csv" orders_csv) (clear_all_data orders_db).1).1)
    = 1%nat
  ∧ (∀ calls total msg,
       get_analytics_overview
         (upload_file (upload "orders.csv" orders_csv) (clear_all_data orders_db).1).1
       ≠ (calls, Ok (NoData total msg)))
  ∧ (∀ calls stats,
       get_analytics_overview
         (upload_file (upload "orders.csv" orders_csv) (clear_all_data orders_db).1).1
       = (calls, Ok (Overview stats)) →
       total_records stats = 2).
Proof.
  apply (upload_into_cleared_store (upload "orders.csv" orders_csv) orders_db _
           (answer 2 1 ["Removed 1 duplicate records"])).
  run.
Defined.

Lemma overview_order_counts_add_up_witness :
  ∃ calls stats,
    get_analytics_overview orders_db = (calls, Ok (Overview stats))
    ∧ ((length (daily_revenue stats) < 30)%nat →
         Z_total (orders <$> daily_revenue stats) = total_records stats)
    ∧ ((length (top_customers stats) < 5)%nat →
         Z_total (ce_order_count <$> top_customers stats) = total_records stats)
    ∧ ((length (top_products stats) < 5)%nat →
         Z_total (pe_order_count <$> top_products stats) = total_records stats).
Proof.
  destruct (get_analytics_overview orders_db)
    as [calls [[total msg|stats]|code detail]] eqn:Hrun;
    [exfalso; run_in Hrun; discriminate| |
     exfalso; run_in Hrun; discriminate].
  exists calls, stats. split; [reflexivity|].
  exact (overview_order_counts_add_up orders_db calls stats Hrun).
Defined.

(** in [orders_db] the seven order lines fall on three days, 3 + 2 + 2 *)
Example orders_db_daily_orders :
  match (get_analytics_overview orders_db).2 with
  | Ok (Overview stats) =>
      orders <$> daily_revenue stats = [3; 2; 2] ∧ total_records stats = 7
  | _ => False
  end.
Proof.
  run_at (get_analytics_overview orders_db).2. cbv beta iota. split; run.
Qed.
End MoreRuns.

(** ** When the schema stage is silent *)

Section Silent.
Context `{Library}.
Implicit Types (df : DataFrame) (name : string).

Lemma setitem_eq name values df :
  setitem name values df = ((setitem name values df).1, Returned ()).
Proof.
  pose proof (setitem_returns name values df) as Hret.
  destruct (setitem name values df) as [df' r]. simpl in *. by subst r.
Qed.

Lemma setitem_columns_present name values df :
  name ∈ columns df → columns (setitem name values df).1 = columns df.
Proof. intros Hin. by rewrite setitem_columns, bool_decide_eq_true_2. Qed.

Lemma positions_snoc_other name other (cols : list string) :
  other ≠ name → positions name (cols ++ [other]) = positions name cols.
Proof.
  intros Hne. unfold positions. rewrite length_app. simpl.
  rewrite Nat.add_1_r, seq_S, filter_app. simpl.
  rewrite filter_cons_False, filter_nil, app_nil_r
    by (rewrite list_lookup_middle by done; congruence).
  apply list_filter_iff. intros j.
  destruct (decide (j < length cols)%nat) as [Hlt|Hge].
  - by rewrite lookup_app_l.
  - rewrite (lookup_ge_None_2 cols) by lia.
    destruct (decide (j = length cols)) as [->|Hne'].
    + rewrite list_lookup_middle by done. split; [congruence|done].
    + rewrite lookup_ge_None_2 by (rewrite length_app; simpl; lia). done.
Qed.

(** The [try] block on a frame that has the two required price columns and
    no [total_price] column yet: it returns exactly when each of the labels
    [quantity] and [unit_price] is carried by one column and [order_date]
    by at most one. *)
Lemma convert_types_returns_iff df :
  "quantity" ∈ columns df → "unit_price" ∈ columns df →
  "total_price" ∉ columns df →
  ((convert_types df).2 = Returned () ↔
     length (positions "quantity" (columns df)) = 1%nat
     ∧ length (positions "unit_price" (columns df)) = 1%nat
     ∧ (length (positions "order_date" (columns df)) ≤ 1)%nat)
  ∧ ((convert_types df).2 = Returned () →
       columns (convert_types df).1 = columns df ++ ["total_price"]).
Proof.
  intros Hq Hp Habs.
  pose proof (positions_nonempty _ _ Hq) as Hqne.
  pose proof (positions_nonempty _ _ Hp) as Hpne.
  unfold convert_types.
  (* quantity *)
  destruct (positions "quantity" (columns df)) as [|jq [|jq' lq]] eqn:Hposq; [done| |].
  2: { erewrite try_bind_raised
         by (apply getitem_ambiguous; rewrite Hposq; simpl; lia).
       simpl. split; [split; [done|lia]|done]. }
  erewrite try_bind_returned by (by apply getitem_unique).
  erewrite try_bind_returned by apply setitem_eq.
  set (d1 := (setitem "quantity" _ df).1).
  assert (Hc1 : columns d1 = columns df) by (by apply setitem_columns_present).
  (* unit_price *)
  destruct (positions "unit_price" (columns df)) as [|jp [|jp' lp]] eqn:Hposp; [done| |].
  2: { erewrite try_bind_raised
         by (apply getitem_ambiguous; rewrite Hc1, Hposp; simpl; lia).
       simpl. split; [split; [done|lia]|done]. }
  erewrite try_bind_returned by (apply getitem_unique; rewrite Hc1; exact Hposp).
  erewrite try_bind_returned by apply setitem_eq.
  set (d2 := (setitem "unit_price" _ d1).1).
  assert (Hc2 : columns d2 = columns df).
  { unfold d2. rewrite setitem_columns_present; [done|by rewrite Hc1]. }
  (* total_price *)
  erewrite try_bind_returned.
  2: { unfold when_columns. rewrite bool_decide_eq_true_2 by (by rewrite Hc2).
       erewrite try_bind_returned
         by (apply getitem_unique; rewrite Hc2; exact Hposq).
       erewrite try_bind_returned
         by (apply getitem_unique; rewrite Hc2; exact Hposp).
       apply setitem_eq. }
  set (d3 := (setitem "total_price" _ d2).1).
  assert (Hc3 : columns d3 = columns df ++ ["total_price"]).
  { unfold d3. rewrite setitem_columns, bool_decide_eq_false_2 by (by rewrite Hc2).
    by rewrite Hc2. }
  (* order_date *)
  assert (Hposd : positions "order_date" (columns d3)
                  = positions "order_date" (columns df))
    by (rewrite Hc3; by apply positions_snoc_other).
  unfold when_columns.
  destruct (bool_decide ("order_date" ∈ columns d3)) eqn:Hin.
  - apply bool_decide_eq_true in Hin.
    pose proof (positions_nonempty _ _ Hin) as Hdne. rewrite Hposd in Hdne.
    destruct (positions "order_date" (columns df)) as [|jd [|jd' ld]] eqn:Hposd';
      [done| |].
    + erewrite try_bind_returned by (apply getitem_unique; exact Hposd).
      rewrite setitem_eq. simpl.
      split; [split; [intros _; split_and!; [done|done|lia]|done]|].
      intros _. rewrite setitem_columns_present by done. exact Hc3.
    + erewrite try_bind_raised
        by (apply getitem_ambiguous; rewrite Hposd; simpl; lia).
      simpl. split; [split; [done|intros (_ & _ & ?); lia]|done].
  - apply bool_decide_eq_false in Hin. simpl.
    assert (positions "order_date" (columns df) = []) as Hnone.
    { apply elem_of_nil_inv. intros j Hj. apply Hin.
      rewrite <- Hposd in Hj. apply elem_of_positions in Hj.
      by eapply list_elem_of_lookup_2. }
    rewrite Hnone. simpl.
    split; [split; [intros _; split_and!; [done|done|lia]|done]|done].
Qed.

(** X16. The schema stage reports nothing exactly when all four required
    labels are present after mapping, [quantity] and [unit_price] are each
    carried by one column, and [order_date] by at most one; the frame it
    then returns has the mapped labels followed by [total_price]. *)
Theorem standardize_schema_silent_iff df :
  ((standardize_schema df).2 = [] ↔
     missing_columns df = []
     ∧ length (positions "quantity" (columns (renamed df))) = 1%nat
     ∧ length (positions "unit_price" (columns (renamed df))) = 1%nat
     ∧ (length (positions "order_date" (columns (renamed df))) ≤ 1)%nat)
  ∧ ((standardize_schema df).2 = [] →
       columns (standardize_schema df).1 = columns (renamed df) ++ ["total_price"]).
Proof.
  destruct (decide (missing_columns df = [])) as [Hmiss|Hmiss].
  - rewrite (standardize_schema_present df Hmiss).
    destruct (convert_types_returns_iff (renamed df)) as [Hiff Hcols].
    { apply required_columns_present; [done|]. unfold required_columns. set_solver. }
    { apply required_columns_present; [done|]. unfold required_columns. set_solver. }
    { apply total_price_not_normalized. }
    destruct (convert_types (renamed df)) as [df' [[]|e]]; simpl in *.
    + split; [|intros _; by apply Hcols].
      split; [intros _; split; [done|by apply Hiff]|done].
    + split; [|done]. split; [done|]. intros [_ Hcond].
      by apply Hiff in Hcond.
  - rewrite (standardize_schema_missing df Hmiss). simpl.
    split; [|done]. split; [done|]. by intros [? _].
Qed.
End Silent.

(** ** One entry per product, customer and day *)

Section DistinctEntries.
Context `{Library}.

Lemma group_keys_NoDup {K A} `{EqDecision K} (key : A → K) (items : list A) :
  NoDup ((group key items).*1).
Proof.
  unfold group. rewrite <- list_fmap_compose.
  rewrite (list_fmap_ext _ id _ (λ _ _ _, eq_refl)), list_fmap_id.
  apply NoDup_drop_duplicates_from.
Qed.

Lemma limit_merge_sort_keys_NoDup {A K} (R : relation A) `{!RelDecision R}
    (f : A → K) n (l : list A) :
  NoDup (f <$> l) → NoDup (f <$> limit n (merge_sort R l)).
Proof.
  intros Hnd. unfold limit.
  eapply sublist_NoDup; [|apply fmap_sublist, sublist_take].
  by rewrite merge_sort_Permutation.
Qed.

(** X17. No product, customer or day is listed twice: the entries of
    [top_products] have pairwise distinct (product_id, product_name) pairs,
    those of [top_customers] distinct customer ids, and those of
    [daily_revenue] distinct dates. *)
Theorem overview_entries_are_distinct (db : Db) calls stats :
  get_analytics_overview db = (calls, Ok (Overview stats)) →
  NoDup ((λ e, (product_id e, product_name e)) <$> top_products stats)
  ∧ NoDup (customer_id <$> top_customers stats)
  ∧ NoDup (date <$> daily_revenue stats).
Proof.
  unfold get_analytics_overview. case_bool_decide; [done|].
  destruct (daily_revenue_pipeline (ecommerce_data db)) as [daily|e] eqn:Hdaily;
    [|done].
  destruct (collect (product_entry <$> top_products_pipeline (ecommerce_data db)))
    as [entries|e] eqn:Hentries; [|done].
  intros [= <- <-]. cbn [daily_revenue top_customers top_products].
  split_and!.
  - apply collect_Forall2 in Hentries.
    assert (NoDup (pg_id <$> top_products_pipeline (ecommerce_data db))) as Hnd.
    { unfold top_products_pipeline. apply limit_merge_sort_keys_NoDup.
      rewrite <- list_fmap_compose. apply group_keys_NoDup. }
    assert (pg_id <$> top_products_pipeline (ecommerce_data db)
            = (λ e, (Some (product_id e), Some (product_name e))) <$> entries)
      as Hids.
    { clear -Hentries. induction Hentries as [|g e gs es Hge _ IH]; [done|].
      rewrite !fmap_cons. f_equal; [|exact IH]. unfold product_entry in Hge.
      destruct (pg_id g) as [[?|] [?|]]; by simplify_eq. }
    rewrite Hids in Hnd.
    apply (NoDup_fmap_1 (λ p, (Some p.1, Some p.2))).
    by rewrite <- list_fmap_compose.
  - rewrite <- list_fmap_compose.
    unfold top_customers_pipeline. apply limit_merge_sort_keys_NoDup.
    rewrite <- list_fmap_compose. apply group_keys_NoDup.
  - rewrite <- list_fmap_compose. revert Hdaily.
    unfold daily_revenue_pipeline, mbind, raises_bind, mret, raises_ret.
    destruct (collect (day_key <$> ecommerce_data db)) as [keys|e]; [|done].
    cbv zeta.
    match goal with |- context [limit 30 (merge_sort by_id_asc ?l)] =>
      set (groups := l); set (sorted := limit 30 (merge_sort by_id_asc groups)) end.
    intros Heq. assert (daily = sorted) as -> by congruence. clear Heq.
    unfold sorted. apply limit_merge_sort_keys_NoDup.
    unfold groups. rewrite <- list_fmap_compose. apply group_keys_NoDup.
Qed.
End DistinctEntries.

Section DistinctRuns.
Import Sample.

Lemma overview_entries_are_distinct_witness :
  ∃ calls stats,
    get_analytics_overview orders_db = (calls, Ok (Overview stats))
    ∧ NoDup ((λ e, (product_id e, product_name e)) <$> top_products stats)
    ∧ NoDup (customer_id <$> top_customers stats)
    ∧ NoDup (date <$> daily_revenue stats).
Proof.
  destruct (get_analytics_overview orders_db)
    as [calls [[total msg|stats]|code detail]] eqn:Hrun;
    [exfalso; run_in Hrun; discriminate| |
     exfalso; run_in Hrun; discriminate].
  exists calls, stats. split; [reflexivity|].
  exact (overview_entries_are_distinct orders_db calls stats Hrun).
Defined.

(** the sample orders file passes the schema stage in silence and gains
    the [total_price] column *)
Example orders_frame_silent :
  (standardize_schema (clean_dataframe orders_frame).1).2 = []
  ∧ last (columns (standardize_schema (clean_dataframe orders_frame).1).1)
    = Some "total_price".
Proof. split; run. Qed.
End DistinctRuns.

(** * What a completed upload stores *)

Section Confined.
Context `{Library}.
Implicit Types (file : UploadFile) (db : Db) (df : DataFrame)
  (r : list cell) (name : string).











(** *** When the product is derived *)

(** the conversion reaches the assignment of the product *)
Definition derives_total_price df : Prop :=
  missing_columns df = []
  ∧ length (positions "quantity" (columns (renamed df))) = 1%nat
  ∧ length (positions "unit_price" (columns (renamed df))) = 1%nat.



(** *** The documents of a completed upload *)





End Confined.

(** ** The sample files once more *)

Section StoredRuns.
Import Sample.



(** A date that does not parse is not stored as a missing value: the
    driver refuses the NaT, the upload fails and stores nothing. *)
Example unparsed_date_refused :
  ecommerce_data (upload_file (upload "orders.csv" bad_date_csv) empty_db).1 = []
  ∧ status <$> processing_logs
                 (upload_file (upload "orders.csv" bad_date_csv) empty_db).1
    = ["failed"]
  ∧ ∃ detail,
      (upload_file (upload "orders.csv" bad_date_csv) empty_db).2
      = HTTPException 500 detail.
Proof.
  split_and!; [run|run|].
  run_at (upload_file (upload "orders.csv" bad_date_csv) empty_db).2. by eexists.
Qed.



(** the two conditions under which the upload of [no_price_csv] completes *)
Example no_price_rows_encodable :
  rows (clean_dataframe no_price_frame).1 ≠ []
  ∧ forallb encodable
      (imap (add_metadata "orders.csv")
            (to_dict_records (renamed (clean_dataframe no_price_frame).1))) = true.
Proof. split; [run_ne|run]. Qed.

(** An invoice number beyond 8 bytes in a file without unit price: the
    rows reach the driver, which refuses them; nothing is stored. *)
Example large_invoice_refused :
  missing_columns (clean_dataframe large_invoice_frame).1 = ["unit_price"]
  ∧ ecommerce_data
      (upload_file (upload "orders.csv" large_invoice_csv) empty_db).1 = []
  ∧ status <$> processing_logs
                 (upload_file (upload "orders.csv" large_invoice_csv) empty_db).1
    = ["failed"]
  ∧ ∃ detail,
      (upload_file (upload "orders.csv" large_invoice_csv) empty_db).2
      = HTTPException 500 detail.
Proof.
  split_and!; [run|run|run|].
  run_at (upload_file (upload "orders.csv" large_invoice_csv) empty_db).2.
  by eexists.
Qed.



(** the product is derived for [orders_csv], and not for [no_product_csv] *)
Example orders_derive_total_price :
  derives_total_price (clean_dataframe orders_frame).1
  ∧ ¬ derives_total_price (clean_dataframe no_product_frame).1.
Proof.
  split; [unfold derives_total_price; split_and!; run|].
  intros [Hmiss _]. run_in Hmiss. discriminate.
Qed.
End StoredRuns.
